(** * Timely-Hub backend: the reminder scheduler (src/services/schedulerService.ts)

    A shallow embedding of [SchedulerService] and of the parts of its
    environment it talks to: the JavaScript [Date] rendering used in the
    due-window query, the reminder collection, the notification transport,
    the console and the cron registry. *)

From Stdlib Require Import ZArith List Bool Lia Ascii String DecimalString.
Import ListNotations.
Open Scope Z_scope.

(** ** JavaScript dates: time values and [Date.prototype.toISOString]

    A time value is the number of milliseconds since 1970-01-01T00:00:00Z.
    The day and time-of-day functions are the ones of the ECMAScript
    specification (section "Overview of Date Objects"). *)
Module JSDate.

Definition msPerDay : Z := 86400000.
Definition msPerHour : Z := 3600000.
Definition msPerMinute : Z := 60000.
Definition msPerSecond : Z := 1000.

Definition Day (t : Z) : Z := t / msPerDay.
Definition TimeWithinDay (t : Z) : Z := t mod msPerDay.

Definition DayFromYear (y : Z) : Z :=
  365 * (y - 1970) + (y - 1969) / 4 - (y - 1901) / 100 + (y - 1601) / 400.

Definition DaysInYear (y : Z) : Z :=
  if negb (y mod 4 =? 0) then 365
  else if negb (y mod 100 =? 0) then 366
  else if negb (y mod 400 =? 0) then 365
  else 366.

(** [YearOfDay d] is the year [y] with [DayFromYear y <= d < DayFromYear (y+1)]:
    a first guess from the mean year length, corrected by at most one. *)
Definition YearOfDay (d : Z) : Z :=
  let y := 1970 + (400 * d) / 146097 in
  if d <? DayFromYear y then y - 1
  else if DayFromYear (y + 1) <=? d then y + 1
  else y.

Definition YearFromTime (t : Z) : Z := YearOfDay (Day t).

Definition InLeapYear (t : Z) : Z :=
  if DaysInYear (YearFromTime t) =? 366 then 1 else 0.

Definition DayWithinYear (t : Z) : Z := Day t - DayFromYear (YearFromTime t).

(** Months are numbered from 0 (January) to 11 (December); [monthOf] and
    [dateOf] are the tables of MonthFromTime and DateFromTime, over the day
    within the year and the leap-year flag. *)
Definition monthOf (d l : Z) : Z :=
  if d <? 31 then 0
  else if d <? 59 + l then 1
  else if d <? 90 + l then 2
  else if d <? 120 + l then 3
  else if d <? 151 + l then 4
  else if d <? 181 + l then 5
  else if d <? 212 + l then 6
  else if d <? 243 + l then 7
  else if d <? 273 + l then 8
  else if d <? 304 + l then 9
  else if d <? 334 + l then 10
  else 11.

Definition dateOf (d l : Z) : Z :=
  match monthOf d l with
  | 0 => d + 1
  | 1 => d - 30
  | 2 => d - 58 - l
  | 3 => d - 89 - l
  | 4 => d - 119 - l
  | 5 => d - 150 - l
  | 6 => d - 180 - l
  | 7 => d - 211 - l
  | 8 => d - 242 - l
  | 9 => d - 272 - l
  | 10 => d - 303 - l
  | _ => d - 333 - l
  end.

Definition MonthFromTime (t : Z) : Z := monthOf (DayWithinYear t) (InLeapYear t).

Definition DateFromTime (t : Z) : Z := dateOf (DayWithinYear t) (InLeapYear t).

Definition HourFromTime (t : Z) : Z := (t / msPerHour) mod 24.
Definition MinFromTime (t : Z) : Z := (t / msPerMinute) mod 60.
Definition SecFromTime (t : Z) : Z := (t / msPerSecond) mod 60.
Definition msFromTime (t : Z) : Z := t mod msPerSecond.

(** Decimal rendering with a fixed number of digits, most significant first. *)
Definition digit (n : Z) : ascii :=
  match n with
  | 0 => "0" | 1 => "1" | 2 => "2" | 3 => "3" | 4 => "4"
  | 5 => "5" | 6 => "6" | 7 => "7" | 8 => "8" | _ => "9"
  end%char.

Fixpoint pad (k : nat) (n : Z) : string :=
  match k with
  | O => EmptyString
  | S k' => String (digit (n / 10 ^ Z.of_nat k')) (pad k' (n mod 10 ^ Z.of_nat k'))
  end.

(** Years 0 to 9999 are written with four digits, all others with a sign
    and six digits (the "expanded year" form). *)
Definition yearString (y : Z) : string :=
  if (0 <=? y) && (y <=? 9999) then pad 4 y
  else if y <? 0 then String "-" (pad 6 (Z.abs y))
  else String "+" (pad 6 (Z.abs y)).

Definition toISOString (t : Z) : string :=
  (yearString (YearFromTime t) ++ "-" ++ pad 2 (MonthFromTime t + 1) ++ "-"
   ++ pad 2 (DateFromTime t) ++ "T" ++ pad 2 (HourFromTime t) ++ ":"
   ++ pad 2 (MinFromTime t) ++ ":" ++ pad 2 (SecFromTime t) ++ "."
   ++ pad 3 (msFromTime t) ++ "Z")%string.

(** [new Date(now.getTime() + 5 * 60 * 1000)] *)
Definition lookahead : Z := 5 * 60 * 1000.

(** Comparing two instants field by field, in the order the fields are
    written: the first field that differs decides. *)
Definition lex (c1 c2 : comparison) : comparison :=
  match c1 with Eq => c2 | _ => c1 end.

Definition dateCompare (t1 t2 : Z) : comparison :=
  lex (YearFromTime t1 ?= YearFromTime t2)
    (lex (MonthFromTime t1 + 1 ?= MonthFromTime t2 + 1)
       (DateFromTime t1 ?= DateFromTime t2)).

Definition clockCompare (t1 t2 : Z) : comparison :=
  lex (HourFromTime t1 ?= HourFromTime t2)
    (lex (MinFromTime t1 ?= MinFromTime t2)
       (lex (SecFromTime t1 ?= SecFromTime t2)
          (msFromTime t1 ?= msFromTime t2))).

(** The renderings with four-digit years: 24 characters. *)
Definition fixedWidth (t : Z) : Prop := String.length (toISOString t) = 24%nat.

End JSDate.

(** ** Asynchronous programs

    An [async] function is a tree of operations: it either returns, throws,
    or performs an operation and continues with its outcome (a value, or the
    exception a rejected promise carries).  [await] of an external call is
    an operation whose outcome the environment decides. *)
Module Async.

Inductive exn : Type :=
| StoreError (msg : string)          (* a rejected query or update *)
| DocumentNotFoundError (id : nat)   (* Mongoose: save() of a document that is gone *)
| TransportError (msg : string)      (* a rejected sendReminderNotification *)
| TypeError (msg : string)           (* property access on null *)
| RangeError (msg : string).         (* Date.prototype.toISOString on an invalid date *)

Definition Result (X : Type) : Type := (exn + X)%type.

(** A reminder as stored in the collection.  [notified] is absent
    ([None]), [false] or [true]. *)
Record Reminder : Type := mkReminder {
  _id : nat;
  userId : nat;
  title : string;
  datetime : string;
  notified : option bool
}.

(** A hydrated document returned by [find(...).populate('userId')]: the
    stored fields, with [userId] replaced by the referenced user document
    ([None] is JavaScript's [null], when no such user exists).  A user
    document is represented by what [toString()] returns for it. *)
Record Doc : Type := mkDoc {
  raw : Reminder;
  user : option string
}.

(** [reminder.notified = true] on the local document. *)
Definition set_notified (r : Reminder) (b : option bool) : Reminder :=
  mkReminder (_id r) (userId r) (title r) (datetime r) b.

Definition assign_notified (d : Doc) (b : bool) : Doc :=
  mkDoc (set_notified (raw d) (Some b)) (user d).

Inductive Op : Type -> Type :=
| NewDate : Op Z
| ConsoleLog (msg : string) : Op unit
| ConsoleError (msg : string) (e : exn) : Op unit
| Find (gte lte : string) : Op (list Doc)
| SendReminderNotification (uid ttl dt : string) : Op unit
| Save (d : Doc) : Op unit
| UpdateManyUnsetNotified : Op nat.

(** The operations a function awaits; the others complete synchronously. *)
Definition isAsync {X : Type} (op : Op X) : bool :=
  match op with
  | NewDate | ConsoleLog _ | ConsoleError _ _ => false
  | _ => true
  end.

Inductive Prog (A : Type) : Type :=
| Ret (a : A)
| Throw (e : exn)
| Do (X : Type) (op : Op X) (k : Result X -> Prog A).

Arguments Ret {A} a.
Arguments Throw {A} e.
Arguments Do {A X} op k.

Fixpoint bind {A B : Type} (p : Prog A) (f : A -> Prog B) : Prog B :=
  match p with
  | Ret a => f a
  | Throw e => Throw e
  | Do op k => Do op (fun r => bind (k r) f)
  end.

(** [try { p } catch (error) { h error }] *)
Fixpoint try_catch {A : Type} (p : Prog A) (h : exn -> Prog A) : Prog A :=
  match p with
  | Ret a => Ret a
  | Throw e => h e
  | Do op k => Do op (fun r => try_catch (k r) h)
  end.

(** An operation whose failure is thrown at the point of the call. *)
Definition perform {X : Type} (op : Op X) : Prog X :=
  Do op (fun r => match r with inl e => Throw e | inr x => Ret x end).

(** [for (const x of l) { body x }] *)
Fixpoint for_of {X : Type} (l : list X) (body : X -> Prog unit) : Prog unit :=
  match l with
  | [] => Ret tt
  | x :: l' => bind (body x) (fun _ => for_of l' body)
  end.

(** The outcomes an operation can have: an awaited call may reject, the
    synchronous operations always complete. *)
Definition possible {X : Type} (op : Op X) (r : Result X) : Prop :=
  match r with
  | inl _ => isAsync op = true
  | inr _ => True
  end.

(** A program that ends by returning, whatever the outcomes of its
    operations. *)
Inductive NoThrow {A : Type} : Prog A -> Prop :=
| NoThrow_Ret (a : A) : NoThrow (Ret a)
| NoThrow_Do (X : Type) (op : Op X) (k : Result X -> Prog A) :
    (forall r, possible op r -> NoThrow (k r)) -> NoThrow (Do op k).

End Async.

Declare Scope prog_scope.
Delimit Scope prog_scope with prog.
Notation "x <- p ;; q" := (Async.bind p (fun x => q))
  (at level 61, p at next level, right associativity) : prog_scope.
Notation "p ;; q" := (Async.bind p (fun _ => q))
  (at level 61, right associativity) : prog_scope.


(** ** The environment: clock, collections, transport, console, cron *)
Module Env.
Import Async.

Inductive LogEntry : Type :=
| Log (msg : string)                 (* console.log *)
| Err (msg : string) (e : exn).      (* console.error *)

(** One call of [notificationService.sendReminderNotification], with its
    arguments and whether the returned promise resolved. *)
Record Attempt : Type := mkAttempt {
  to : string;
  subject : string;
  due : string;
  delivered : bool
}.

(** A task registered with [cron.schedule]. *)
Record CronJob : Type := mkCronJob {
  expression : string;
  callback : Prog unit
}.

Record World : Type := mkWorld {
  clock : Z;                       (* the time value [new Date()] reads *)
  reminders : list Reminder;       (* the Reminder collection, in natural order *)
  users : list (nat * string);     (* the User collection: id, toString() of the document *)
  faults : list bool;              (* outcomes of the coming external calls: [true] rejects,
                                      none left means the call succeeds *)
  outbox : list Attempt;           (* calls of sendReminderNotification, oldest first *)
  console : list LogEntry;         (* console output, oldest first *)
  isRunning : bool;                (* SchedulerService.isRunning *)
  cronJobs : list CronJob          (* tasks registered with node-cron, oldest first *)
}.

Definition set_reminders (l : list Reminder) (w : World) : World :=
  mkWorld (clock w) l (users w) (faults w) (outbox w) (console w) (isRunning w) (cronJobs w).
Definition set_faults (l : list bool) (w : World) : World :=
  mkWorld (clock w) (reminders w) (users w) l (outbox w) (console w) (isRunning w) (cronJobs w).
Definition set_outbox (l : list Attempt) (w : World) : World :=
  mkWorld (clock w) (reminders w) (users w) (faults w) l (console w) (isRunning w) (cronJobs w).
Definition set_console (l : list LogEntry) (w : World) : World :=
  mkWorld (clock w) (reminders w) (users w) (faults w) (outbox w) l (isRunning w) (cronJobs w).
Definition set_isRunning (b : bool) (w : World) : World :=
  mkWorld (clock w) (reminders w) (users w) (faults w) (outbox w) (console w) b (cronJobs w).
Definition set_cronJobs (l : list CronJob) (w : World) : World :=
  mkWorld (clock w) (reminders w) (users w) (faults w) (outbox w) (console w) (isRunning w) l.
Definition set_clock (t : Z) (w : World) : World :=
  mkWorld t (reminders w) (users w) (faults w) (outbox w) (console w) (isRunning w) (cronJobs w).

Definition console_log (msg : string) (w : World) : World :=
  set_console (console w ++ [Log msg]) w.
Definition console_error (msg : string) (e : exn) (w : World) : World :=
  set_console (console w ++ [Err msg e]) w.

(** The outcome the environment gives the next external call. *)
Definition next_fault (w : World) : bool * World :=
  (hd false (faults w), set_faults (tl (faults w)) w).

(** [{ $ne: true }] matches an absent field and every value but [true]. *)
Definition ne_true (b : option bool) : bool :=
  match b with
  | Some true => false
  | _ => true
  end.

(** The filter of the due-window query: strings compared as MongoDB
    compares them, byte by byte. *)
Definition matches (gte lte : string) (r : Reminder) : bool :=
  String.leb gte (datetime r) && String.leb (datetime r) lte && ne_true (notified r).

Fixpoint lookup_user (us : list (nat * string)) (id : nat) : option string :=
  match us with
  | [] => None
  | (i, s) :: us' => if Nat.eqb i id then Some s else lookup_user us' id
  end.

Definition populate (w : World) (r : Reminder) : Doc :=
  mkDoc r (lookup_user (users w) (userId r)).

(** [updateOne({ _id: id }, { $set: { notified: b } })]: the first document
    with that id. *)
Fixpoint update_one (id : nat) (b : option bool) (l : list Reminder) : list Reminder :=
  match l with
  | [] => []
  | r :: l' => if Nat.eqb (_id r) id then set_notified r b :: l'
               else r :: update_one id b l'
  end.

Definition has_id (id : nat) (l : list Reminder) : bool :=
  existsb (fun r => Nat.eqb (_id r) id) l.

Definition is_true (b : option bool) : bool := negb (ne_true b).

(** [findByIdAndDelete(id)], which the reminder-management side of the
    application may run at any time. *)
Definition delete_by_id (id : nat) (l : list Reminder) : list Reminder :=
  filter (fun r => negb (Nat.eqb (_id r) id)) l.

(** [updateMany({ notified: true }, { $unset: { notified: 1 } })] *)
Definition unset_notified (l : list Reminder) : list Reminder :=
  map (fun r => if is_true (notified r) then set_notified r None else r) l.

Definition modifiedCount (l : list Reminder) : nat :=
  List.length (filter (fun r => is_true (notified r)) l).

(** [findById(id)] *)
Fixpoint find_by_id (id : nat) (l : list Reminder) : option Reminder :=
  match l with
  | [] => None
  | r :: l' => if Nat.eqb (_id r) id then Some r else find_by_id id l'
  end.

(** The arguments of the send a document leads to, if its user resolves. *)
Definition send_args (d : Doc) : list (string * string * string) :=
  match user d with
  | Some u => [(u, title (raw d), datetime (raw d))]
  | None => []
  end.

(** The attempt a document leads to when its send is accepted. *)
Definition accepted (d : Doc) : list Attempt :=
  match user d with
  | Some u => [mkAttempt u (title (raw d)) (datetime (raw d)) true]
  | None => []
  end.

Definition attempt_args (a : Attempt) : string * string * string :=
  (to a, subject a, due a).

(** What performing an operation does to the world, and its outcome. *)
Definition exec {X : Type} (op : Op X) (w : World) : Result X * World :=
  match op in Op X return Result X * World with
  | NewDate => (inr (clock w), w)
  | ConsoleLog msg => (inr tt, console_log msg w)
  | ConsoleError msg e => (inr tt, console_error msg e w)
  | Find gte lte =>
      let (bad, w1) := next_fault w in
      if bad then (inl (StoreError "find"), w1)
      else (inr (map (populate w1) (filter (matches gte lte) (reminders w1))), w1)
  | SendReminderNotification uid ttl dt =>
      let (bad, w1) := next_fault w in
      let w2 := set_outbox (outbox w1 ++ [mkAttempt uid ttl dt (negb bad)]) w1 in
      if bad then (inl (TransportError "send"), w2) else (inr tt, w2)
  | Save d =>
      let (bad, w1) := next_fault w in
      if bad then (inl (StoreError "save"), w1)
      else if has_id (_id (raw d)) (reminders w1)
      then (inr tt, set_reminders (update_one (_id (raw d)) (notified (raw d)) (reminders w1)) w1)
      else (inl (DocumentNotFoundError (_id (raw d))), w1)
  | UpdateManyUnsetNotified =>
      let (bad, w1) := next_fault w in
      if bad then (inl (StoreError "updateMany"), w1)
      else (inr (modifiedCount (reminders w1)),
            set_reminders (unset_notified (reminders w1)) w1)
  end.

(** The world after the send of [d] to [u] was attempted. *)
Definition sent_to (u : string) (d : Doc) (w : World) : World :=
  set_outbox (outbox w ++ [mkAttempt u (title (raw d)) (datetime (raw d))
                             (negb (hd false (faults w)))])
    (set_faults (tl (faults w)) w).

(** Two states of the collection that differ at most by flags set to
    [true]. *)
Definition marked (l l' : list Reminder) : Prop :=
  Forall2 (fun r r' => r' = r \/ r' = set_notified r (Some true)) l l'.

(** What a cycle leaves alone: the clock, the users and the scheduler. *)
Definition same_frame (w w' : World) : Prop :=
  clock w' = clock w /\ users w' = users w /\ isRunning w' = isRunning w
  /\ cronJobs w' = cronJobs w.

(** Running a program to completion, with nothing else in between. *)
Fixpoint run {A : Type} (p : Prog A) (w : World) : Result A * World :=
  match p with
  | Ret a => (inr a, w)
  | Throw e => (inl e, w)
  | Do op k => let (r, w') := exec op w in run (k r) w'
  end.

(** One turn of a task: it runs up to and including the next operation it
    awaits, then yields to the other tasks. *)
Fixpoint turn {A : Type} (p : Prog A) (w : World) : Prog A * World :=
  match p with
  | Do op k =>
      let (r, w') := exec op w in
      if isAsync op then (k r, w') else turn (k r) w'
  | _ => (p, w)
  end.


End Env.

(** ** node-cron: patterns and the minute timer

    The part of the pattern language the service uses: five space-separated
    fields (minute, hour, day of month, month, day of week), each [*] or a
    decimal number.  Times are taken in UTC. *)
Module Cron.
Import Async Env.

Fixpoint fields_from (s cur : string) : list string :=
  match s with
  | EmptyString => [cur]
  | String c s' =>
      if Ascii.eqb c " " then cur :: fields_from s' EmptyString
      else fields_from s' (cur ++ String c EmptyString)
  end.

Definition fields (s : string) : list string := fields_from s EmptyString.

Fixpoint number (s : string) (acc : Z) : option Z :=
  match s with
  | EmptyString => Some acc
  | String c s' =>
      let n := Z.of_N (N_of_ascii c) - 48 in
      if (0 <=? n) && (n <=? 9) then number s' (10 * acc + n) else None
  end.

Definition field_matches (f : string) (v : Z) : bool :=
  if String.eqb f "*" then true
  else match f with
       | EmptyString => false
       | _ => match number f 0 with
              | Some n => n =? v
              | None => false
              end
       end.

Definition WeekDay (t : Z) : Z := (JSDate.Day t + 4) mod 7.

Definition matches_time (expr : string) (t : Z) : bool :=
  match fields expr with
  | [mi; h; dom; mon; dow] =>
      field_matches mi (JSDate.MinFromTime t)
      && field_matches h (JSDate.HourFromTime t)
      && field_matches dom (JSDate.DateFromTime t)
      && field_matches mon (JSDate.MonthFromTime t + 1)
      && field_matches dow (WeekDay t)
  | _ => false
  end.

(** [cron.schedule(expr, fn)] *)
Definition schedule (expr : string) (fn : Prog unit) (w : World) : World :=
  set_cronJobs (cronJobs w ++ [mkCronJob expr fn]) w.

(** The callbacks the timer invokes when the clock reaches the minute
    boundary [t]. *)
Definition due_callbacks (t : Z) (w : World) : list (Prog unit) :=
  map callback (filter (fun j => matches_time (expression j) t) (cronJobs w)).

Fixpoint run_all (ps : list (Prog unit)) (w : World) : World :=
  match ps with
  | [] => w
  | p :: ps' => run_all ps' (snd (run p w))
  end.

(** The clock reaches the minute boundary [t]: every matching task runs,
    one after another. *)
Definition tick (t : Z) (w : World) : World :=
  let w1 := set_clock t w in
  run_all (due_callbacks t w1) w1.

End Cron.

(** ** src/services/schedulerService.ts *)
Module SchedulerService.
Import Async Env.
Local Open Scope string_scope.
Local Open Scope prog_scope.

Definition quote : string := String (ascii_of_nat 34) EmptyString.

Definition show_nat (n : nat) : string := NilEmpty.string_of_uint (Nat.to_uint n).

(** ECMAScript's time range: [toISOString] throws outside it. *)
Definition maxTime : Z := 8640000000000000.

Definition toISOString (t : Z) : Prog string :=
  if (Z.abs t <=? maxTime)%Z then Ret (JSDate.toISOString t)
  else Throw (RangeError "Invalid time value").

(** [reminder.userId.toString()] *)
Definition userId_toString (d : Doc) : Prog string :=
  match user d with
  | Some s => Ret s
  | None => Throw (TypeError "Cannot read properties of null (reading 'toString')")
  end.

(** The two template literals of the loop. *)
Definition sentMessage (ttl : string) : string :=
  "✅ Notification sent for reminder: " ++ quote ++ ttl ++ quote.

Definition failedMessage (ttl : string) : string :=
  "❌ Failed to send notification for reminder " ++ quote ++ ttl ++ quote ++ ":".

(** The body of the [for] loop of [checkAndSendReminders]. *)
Definition notify (reminder : Doc) : Prog unit :=
  try_catch
    (uid <- userId_toString reminder ;;
     perform (SendReminderNotification uid (title (raw reminder)) (datetime (raw reminder))) ;;
     (* Mark as notified *)
     let reminder := assign_notified reminder true in
     perform (Save reminder) ;;
     perform (ConsoleLog (sentMessage (title (raw reminder)))))
    (fun error => perform (ConsoleError (failedMessage (title (raw reminder))) error)).

(** [📅 Found n upcoming reminder(s) to notify] *)
Definition foundMessage (n : nat) : string :=
  "📅 Found " ++ show_nat n ++ " upcoming reminder(s) to notify".

Definition checkAndSendReminders : Prog unit :=
  try_catch
    (now <- perform NewDate ;;
     let fiveMinutesFromNow := (now + 5 * 60 * 1000)%Z in
     gte <- toISOString now ;;
     lte <- toISOString fiveMinutesFromNow ;;
     upcomingReminders <- perform (Find gte lte) ;;
     if Nat.eqb (List.length upcomingReminders) 0 then Ret tt
     else
       perform (ConsoleLog (foundMessage (List.length upcomingReminders))) ;;
       for_of upcomingReminders notify)
    (fun error => perform (ConsoleError "Error checking reminders:" error)).

(** The documents the query of a cycle started at [now] selects from a
    collection. *)
Definition selected (now : Z) (l : list Reminder) : list Reminder :=
  filter (matches (JSDate.toISOString now) (JSDate.toISOString (now + 5 * 60 * 1000))) l.

(** What the scan of a cycle started in [w] returns: nothing when the
    query is rejected. *)
Definition scan (w : World) : list Doc :=
  match fst (exec (Find (JSDate.toISOString (clock w))
                        (JSDate.toISOString (clock w + 5 * 60 * 1000))) w) with
  | inr l => l
  | inl _ => []
  end.

(** The instants at which both ends of the window can be rendered. *)
Definition renderable (now : Z) : Prop :=
  (Z.abs now <= maxTime /\ Z.abs (now + 5 * 60 * 1000) <= maxTime)%Z.

Arguments sentMessage : simpl never.
Arguments failedMessage : simpl never.
Arguments foundMessage : simpl never.

(** The callback [startScheduler] registers. *)
Definition timerCallback : Prog unit :=
  try_catch checkAndSendReminders
    (fun error => perform (ConsoleError "Error in reminder scheduler:" error)).

Definition startScheduler (w : World) : World :=
  if isRunning w then console_log "Scheduler is already running" w
  else
    let w := Cron.schedule "* * * * *" timerCallback w in
    let w := set_isRunning true w in
    console_log "🔔 Reminder notification scheduler started - checking every minute" w.

Definition stopScheduler (w : World) : World :=
  let w := set_isRunning false w in
  console_log "🔔 Reminder notification scheduler stopped" w.

Definition triggerManualCheck : Prog unit :=
  perform (ConsoleLog "🔄 Manually triggering reminder check...") ;;
  checkAndSendReminders.

(** [🔄 Reset notifications for n reminders] *)
Definition resetMessage (n : nat) : string :=
  "🔄 Reset notifications for " ++ show_nat n ++ " reminders".

Arguments resetMessage : simpl never.

Definition resetAllNotifications : Prog unit :=
  try_catch
    (result <- perform UpdateManyUnsetNotified ;;
     perform (ConsoleLog (resetMessage result)))
    (fun error => perform (ConsoleError "Error resetting notifications:" error)).





End SchedulerService.

(** ** Sample data

    The evening of 14 November 2023: [t0] is 22:13:20 UTC. *)
Module Fixtures.
Import Async Env.
Local Open Scope string_scope.

Definition t0 : Z := 1700000000000.
Definition minute : Z := 60000.

Definition standup : Reminder := mkReminder 1 10 "Stand-up" "2023-11-14T22:14:20.000Z" None.
Definition dentist : Reminder := mkReminder 2 11 "Dentist" "2023-11-14T22:15:20.000Z" (Some false).
Definition callHome : Reminder := mkReminder 3 10 "Call home" "2023-11-14T22:18:20.000Z" None.

Definition people : list (nat * string) := [(10%nat, "ada"); (11%nat, "grace")].

(** The instants the three reminders are due at. *)
Definition dueInstant (r : Reminder) : Z :=
  if Nat.eqb (_id r) 3 then t0 + 5 * minute else t0 + Z.of_nat (_id r) * minute.

(** A freshly started process: nothing sent, nothing logged, no timer. *)
Definition world (now : Z) (rs : list Reminder) (fs : list bool) : World :=
  mkWorld now rs people fs [] [] false [].

End Fixtures.

(** ** Three sentences of the specification, as they are written *)
Module AsWritten.
Import Async Env SchedulerService Fixtures.

(** The reading of C5 as it is written: a reminder due three minutes after
    [now], not notified, is selected by every cycle run at or after [now]. *)
Definition selected_at_or_after_now : Prop :=
  forall now s r l, now <= s -> In r l ->
    datetime r = JSDate.toISOString (now + 3 * minute) -> notified r = Some false ->
    In r (selected s l).

(** The reading of C4 as it is written: after the reset, a reminder that
    was notified and whose due time is in the past is selected by the next
    scan. *)
Definition past_due_selected_after_reset : Prop :=
  forall w r d, In r (reminders w) -> notified r = Some true ->
    datetime r = JSDate.toISOString d -> d < clock w ->
    In (set_notified r None)
       (selected (clock w) (reminders (snd (run resetAllNotifications w)))).

(** The reading of C2 as it is written: with the store reachable, the mark
    step never raises, whatever became of the reminder since the scan. *)
Definition mark_never_raises : Prop :=
  forall d w, hd false (faults w) = false ->
    exists w', exec (Save (assign_notified d true)) w = (inr tt, w').

End AsWritten.

Example iso_epoch : JSDate.toISOString 0 = "1970-01-01T00:00:00.000Z"%string.
Proof. vm_compute. reflexivity. Qed.
Example iso_2023 : JSDate.toISOString 1700000000000 = "2023-11-14T22:13:20.000Z"%string.
Proof. vm_compute. reflexivity. Qed.
Example iso_leap : JSDate.toISOString 951782400000 = "2000-02-29T00:00:00.000Z"%string.
Proof. vm_compute. reflexivity. Qed.
Example iso_leap_next : JSDate.toISOString 951868800000 = "2000-03-01T00:00:00.000Z"%string.
Proof. vm_compute. reflexivity. Qed.
Example iso_before_epoch : JSDate.toISOString (-1) = "1969-12-31T23:59:59.999Z"%string.
Proof. vm_compute. reflexivity. Qed.
Example iso_9999 : JSDate.toISOString 253402300799999 = "9999-12-31T23:59:59.999Z"%string.
Proof. vm_compute. reflexivity. Qed.
Example iso_10000 : JSDate.toISOString 253402300800000 = "+010000-01-01T00:00:00.000Z"%string.
Proof. vm_compute. reflexivity. Qed.
Example iso_year0 : JSDate.toISOString (-62167219200000) = "0000-01-01T00:00:00.000Z"%string.
Proof. vm_compute. reflexivity. Qed.
Example iso_year_minus1 : JSDate.toISOString (-62167219200001) = "-000001-12-31T23:59:59.999Z"%string.
Proof. vm_compute. reflexivity. Qed.
Example iso_1900 : JSDate.toISOString (-2203891200000) = "1900-03-01T00:00:00.000Z"%string.
Proof. vm_compute. reflexivity. Qed.

(** * Facts about dates and their renderings *)
Module DateFacts.
Import JSDate.

Ltac zlia := Z.div_mod_to_equations; lia.

Lemma DaysInYear_cases y : DaysInYear y = 365 \/ DaysInYear y = 366.
Proof.
  unfold DaysInYear.
  destruct (y mod 4 =? 0), (y mod 100 =? 0), (y mod 400 =? 0); cbn; auto.
Qed.

Lemma DayFromYear_step y : DayFromYear (y + 1) = DayFromYear y + DaysInYear y.
Proof.
  unfold DayFromYear, DaysInYear.
  destruct (Z.eqb_spec (y mod 4) 0); cbn [negb].
  - destruct (Z.eqb_spec (y mod 100) 0); cbn [negb].
    + destruct (Z.eqb_spec (y mod 400) 0); cbn [negb]; zlia.
    + zlia.
  - zlia.
Qed.

Lemma DayFromYear_lt y1 y2 : y1 < y2 -> DayFromYear y1 < DayFromYear y2.
Proof. unfold DayFromYear. intros H. zlia. Qed.

Lemma DayFromYear_le y1 y2 : y1 <= y2 -> DayFromYear y1 <= DayFromYear y2.
Proof.
  intros H. destruct (Z.eq_dec y1 y2) as [->|]; [lia|].
  apply Z.lt_le_incl, DayFromYear_lt. lia.
Qed.

Lemma YearOfDay_spec d :
  DayFromYear (YearOfDay d) <= d < DayFromYear (YearOfDay d + 1).
Proof.
  unfold YearOfDay.
  set (y := 1970 + 400 * d / 146097).
  assert (Hy : DayFromYear (y - 1) <= d < DayFromYear (y + 2)).
  { unfold DayFromYear. subst y. zlia. }
  destruct (Z.ltb_spec d (DayFromYear y)).
  - replace (y - 1 + 1) with y by lia. lia.
  - destruct (Z.leb_spec (DayFromYear (y + 1)) d).
    + replace (y + 1 + 1) with (y + 2) by lia. lia.
    + lia.
Qed.

Lemma YearOfDay_unique d y :
  DayFromYear y <= d < DayFromYear (y + 1) -> YearOfDay d = y.
Proof.
  intros H. pose proof (YearOfDay_spec d) as S.
  destruct (Z.lt_trichotomy (YearOfDay d) y) as [L|[E|G]]; [|exact E|].
  - assert (DayFromYear (YearOfDay d + 1) <= DayFromYear y) by (apply DayFromYear_le; lia). lia.
  - assert (DayFromYear (y + 1) <= DayFromYear (YearOfDay d)) by (apply DayFromYear_le; lia). lia.
Qed.

Lemma YearOfDay_mono d1 d2 : d1 <= d2 -> YearOfDay d1 <= YearOfDay d2.
Proof.
  intros H. pose proof (YearOfDay_spec d1). pose proof (YearOfDay_spec d2).
  destruct (Z.le_gt_cases (YearOfDay d1) (YearOfDay d2)); [assumption|].
  assert (DayFromYear (YearOfDay d2 + 1) <= DayFromYear (YearOfDay d1)) by (apply DayFromYear_le; lia).
  lia.
Qed.

Lemma DayWithinYear_bounds t :
  0 <= DayWithinYear t < 365 + InLeapYear t.
Proof.
  unfold DayWithinYear, InLeapYear, YearFromTime.
  pose proof (YearOfDay_spec (Day t)) as S.
  rewrite DayFromYear_step in S.
  destruct (DaysInYear_cases (YearOfDay (Day t))) as [E|E]; rewrite E in *; cbn; lia.
Qed.

Lemma InLeapYear_cases t : InLeapYear t = 0 \/ InLeapYear t = 1.
Proof. unfold InLeapYear. destruct (_ =? 366); auto. Qed.


Ltac month_cases d l :=
  unfold dateOf, monthOf;
  repeat match goal with
  | |- context [d <? ?c] => destruct (Z.ltb_spec d c)
  end.

Lemma monthOf_range d l : 0 <= monthOf d l <= 11.
Proof. month_cases d l; lia. Qed.

Lemma dateOf_range d l : (l = 0 \/ l = 1) -> 0 <= d < 365 + l -> 1 <= dateOf d l <= 31.
Proof. intros Hl Hd. month_cases d l; lia. Qed.

Lemma month_date_lex d1 d2 l : (l = 0 \/ l = 1) -> 0 <= d1 -> d1 < d2 -> d2 < 365 + l ->
  monthOf d1 l < monthOf d2 l \/ (monthOf d1 l = monthOf d2 l /\ dateOf d1 l < dateOf d2 l).
Proof.
  intros Hl H0 H1 H2. unfold dateOf, monthOf.
  repeat match goal with
  | |- context [d1 <? ?c] => destruct (Z.ltb_spec d1 c)
  end;
  repeat match goal with
  | |- context [d2 <? ?c] => destruct (Z.ltb_spec d2 c)
  end; lia.
Qed.

Lemma digit_code n : 0 <= n <= 9 -> N_of_ascii (digit n) = Z.to_N (48 + n).
Proof.
  intros H. destruct n as [|p|p]; [reflexivity| |lia].
  do 4 (try destruct p as [p|p|]; try reflexivity; try lia).
Qed.

Lemma digit_compare a b : 0 <= a <= 9 -> 0 <= b <= 9 ->
  Ascii.compare (digit a) (digit b) = (a ?= b).
Proof.
  intros Ha Hb. unfold Ascii.compare. rewrite !digit_code by assumption.
  rewrite Z2N.inj_compare by lia.
  destruct (Z.compare_spec a b), (Z.compare_spec (48 + a) (48 + b)); try reflexivity; lia.
Qed.

Lemma pow10_pos k : 0 < 10 ^ Z.of_nat k.
Proof. apply Z.pow_pos_nonneg; lia. Qed.

Lemma compare_divmod a b p : 0 < p ->
  (a ?= b) = lex (a / p ?= b / p) (a mod p ?= b mod p).
Proof.
  intros Hp.
  pose proof (Z.div_mod a p ltac:(lia)) as Ea. pose proof (Z.div_mod b p ltac:(lia)) as Eb.
  pose proof (Z.mod_pos_bound a p Hp). pose proof (Z.mod_pos_bound b p Hp).
  unfold lex.
  destruct (Z.compare_spec (a / p) (b / p)) as [E|L|G].
  - rewrite E in Ea.
    destruct (Z.compare_spec (a mod p) (b mod p)); 
    [apply Z.compare_eq_iff|apply Z.compare_lt_iff|apply Z.compare_gt_iff]; lia.
  - apply Z.compare_lt_iff. nia.
  - apply Z.compare_gt_iff. nia.
Qed.

Lemma pad_compare k : forall a b s1 s2,
  0 <= a < 10 ^ Z.of_nat k -> 0 <= b < 10 ^ Z.of_nat k ->
  String.compare (pad k a ++ s1) (pad k b ++ s2) = lex (a ?= b) (String.compare s1 s2).
Proof.
  induction k as [|k IH]; intros a b s1 s2 Ha Hb.
  - cbn in Ha, Hb. assert (a = 0) by lia. assert (b = 0) by lia. subst. reflexivity.
  - cbn [pad append String.compare].
    pose proof (pow10_pos k) as Hp.
    rewrite Nat2Z.inj_succ, Z.pow_succ_r in Ha, Hb by lia.
    assert (0 <= a / 10 ^ Z.of_nat k <= 9) by (split; [apply Z.div_pos; lia| apply Z.lt_succ_r, Z.div_lt_upper_bound; lia]).
    assert (0 <= b / 10 ^ Z.of_nat k <= 9) by (split; [apply Z.div_pos; lia| apply Z.lt_succ_r, Z.div_lt_upper_bound; lia]).
    rewrite digit_compare by assumption.
    rewrite IH by (apply Z.mod_pos_bound; lia).
    rewrite (compare_divmod a b (10 ^ Z.of_nat k)) by lia.
    unfold lex. destruct (_ / _ ?= _ / _); reflexivity.
Qed.

Lemma pad_length k n : String.length (pad k n) = k.
Proof. revert n. induction k; intros; cbn; [reflexivity|now rewrite IHk]. Qed.

Lemma lex_assoc a b c : lex (lex a b) c = lex a (lex b c).
Proof. destruct a; reflexivity. Qed.

Lemma dateCompare_lt t1 t2 : Day t1 < Day t2 -> dateCompare t1 t2 = Lt.
Proof.
  intros H. unfold dateCompare.
  assert (Hy : YearFromTime t1 <= YearFromTime t2) by (apply YearOfDay_mono; lia).
  destruct (Z.compare_spec (YearFromTime t1) (YearFromTime t2)) as [E|L|G]; [|reflexivity|lia].
  cbn [lex].
  pose proof (DayWithinYear_bounds t1) as B1. pose proof (DayWithinYear_bounds t2) as B2.
  assert (El : InLeapYear t1 = InLeapYear t2) by (unfold InLeapYear; now rewrite E).
  assert (Hd : DayWithinYear t1 < DayWithinYear t2) by (unfold DayWithinYear; rewrite E; lia).
  unfold MonthFromTime, DateFromTime. rewrite El.
  destruct (month_date_lex (DayWithinYear t1) (DayWithinYear t2) (InLeapYear t2))
    as [L|[E2 L]]; try lia.
  - apply InLeapYear_cases.
  - assert (C : (monthOf (DayWithinYear t1) (InLeapYear t2) + 1
                 ?= monthOf (DayWithinYear t2) (InLeapYear t2) + 1) = Lt)
      by (apply Z.compare_lt_iff; lia).
    now rewrite C.
  - rewrite E2, Z.compare_refl. cbn [lex]. now apply Z.compare_lt_iff.
Qed.

Lemma dateCompare_eq t1 t2 : Day t1 = Day t2 -> dateCompare t1 t2 = Eq.
Proof.
  intros H. unfold dateCompare, DateFromTime, MonthFromTime, InLeapYear, DayWithinYear, YearFromTime.
  rewrite H, !Z.compare_refl. reflexivity.
Qed.

Lemma dateCompare_Day t1 t2 : dateCompare t1 t2 = (Day t1 ?= Day t2).
Proof.
  destruct (Z.compare_spec (Day t1) (Day t2)) as [E|L|G].
  - now apply dateCompare_eq.
  - now apply dateCompare_lt.
  - pose proof (dateCompare_lt t2 t1 G) as R. unfold dateCompare in *.
    rewrite (Z.compare_antisym (YearFromTime t1)) in R.
    rewrite (Z.compare_antisym (MonthFromTime t1 + 1)) in R.
    rewrite (Z.compare_antisym (DateFromTime t1)) in R.
    destruct (YearFromTime t1 ?= YearFromTime t2), (MonthFromTime t1 + 1 ?= MonthFromTime t2 + 1),
      (DateFromTime t1 ?= DateFromTime t2); cbn in *; congruence.
Qed.

Lemma time_compare t1 t2 :
  (t1 ?= t2) = lex (Day t1 ?= Day t2) (clockCompare t1 t2).
Proof.
  unfold clockCompare, Day, HourFromTime, MinFromTime, SecFromTime, msFromTime,
    msPerDay, msPerHour, msPerMinute, msPerSecond.
  rewrite (compare_divmod t1 t2 1000) by lia.
  rewrite (compare_divmod (t1 / 1000) (t2 / 1000) 60) by lia.
  rewrite !Z.div_div by lia. change (1000 * 60) with 60000.
  rewrite (compare_divmod (t1 / 60000) (t2 / 60000) 60) by lia.
  rewrite !Z.div_div by lia. change (60000 * 60) with 3600000.
  rewrite (compare_divmod (t1 / 3600000) (t2 / 3600000) 24) by lia.
  rewrite !Z.div_div by lia. change (3600000 * 24) with 86400000.
  now rewrite !lex_assoc.
Qed.

Lemma fields_compare t1 t2 :
  lex (dateCompare t1 t2) (clockCompare t1 t2) = (t1 ?= t2).
Proof. now rewrite dateCompare_Day, (time_compare t1 t2). Qed.

Lemma sep_compare c s1 s2 :
  String.compare (String c s1) (String c s2) = String.compare s1 s2.
Proof.
  cbn [String.compare]. unfold Ascii.compare. now rewrite N.compare_refl.
Qed.

Lemma compare_Z_end : String.compare "Z" "Z" = Eq.
Proof. reflexivity. Qed.

Lemma lex_Eq_r c : lex c Eq = c.
Proof. now destruct c. Qed.

Lemma clock_ranges t :
  0 <= HourFromTime t < 10 ^ Z.of_nat 2 /\ 0 <= MinFromTime t < 10 ^ Z.of_nat 2 /\
  0 <= SecFromTime t < 10 ^ Z.of_nat 2 /\ 0 <= msFromTime t < 10 ^ Z.of_nat 3.
Proof.
  unfold HourFromTime, MinFromTime, SecFromTime, msFromTime, msPerHour, msPerMinute, msPerSecond.
  change (10 ^ Z.of_nat 2) with 100. change (10 ^ Z.of_nat 3) with 1000. zlia.
Qed.

Lemma date_ranges t :
  0 <= MonthFromTime t + 1 < 10 ^ Z.of_nat 2 /\ 0 <= DateFromTime t < 10 ^ Z.of_nat 2.
Proof.
  change (10 ^ Z.of_nat 2) with 100.
  unfold MonthFromTime, DateFromTime.
  pose proof (monthOf_range (DayWithinYear t) (InLeapYear t)).
  pose proof (dateOf_range (DayWithinYear t) (InLeapYear t) (InLeapYear_cases t) (DayWithinYear_bounds t)).
  lia.
Qed.

Lemma length_append s1 s2 : String.length (s1 ++ s2) = (String.length s1 + String.length s2)%nat.
Proof. induction s1; cbn; [reflexivity|now rewrite IHs1]. Qed.

Lemma toISOString_length t :
  String.length (toISOString t) =
  if (0 <=? YearFromTime t) && (YearFromTime t <=? 9999) then 24%nat else 27%nat.
Proof.
  unfold toISOString, yearString.
  repeat rewrite length_append. 
  destruct ((0 <=? YearFromTime t) && (YearFromTime t <=? 9999));
    [|destruct (YearFromTime t <? 0)]; cbn [String.length]; rewrite ?pad_length; reflexivity.
Qed.

Lemma fixed_width_year t :
  String.length (toISOString t) = 24%nat <-> 0 <= YearFromTime t <= 9999.
Proof.
  rewrite toISOString_length.
  destruct (Z.leb_spec 0 (YearFromTime t)), (Z.leb_spec (YearFromTime t) 9999); cbn; split; intros; try lia; try discriminate.
Qed.

Lemma toISOString_compare t1 t2 :
  0 <= YearFromTime t1 <= 9999 -> 0 <= YearFromTime t2 <= 9999 ->
  String.compare (toISOString t1) (toISOString t2) = (t1 ?= t2).
Proof.
  intros Y1 Y2. rewrite <- fields_compare.
  unfold toISOString, yearString, dateCompare, clockCompare.
  replace ((0 <=? YearFromTime t1) && (YearFromTime t1 <=? 9999)) with true
    by (symmetry; apply andb_true_iff; split; apply Z.leb_le; lia).
  replace ((0 <=? YearFromTime t2) && (YearFromTime t2 <=? 9999)) with true
    by (symmetry; apply andb_true_iff; split; apply Z.leb_le; lia).
  destruct (clock_ranges t1) as (?&?&?&?). destruct (clock_ranges t2) as (?&?&?&?).
  destruct (date_ranges t1) as (?&?). destruct (date_ranges t2) as (?&?).
  change (10 ^ Z.of_nat 4) with 10000 in *.
  rewrite pad_compare by (change (10 ^ Z.of_nat 4) with 10000; lia).
  cbn [append]. rewrite sep_compare.
  rewrite pad_compare by assumption. cbn [append]. rewrite sep_compare.
  rewrite pad_compare by assumption. cbn [append]. rewrite sep_compare.
  rewrite pad_compare by assumption. cbn [append]. rewrite sep_compare.
  rewrite pad_compare by assumption. cbn [append]. rewrite sep_compare.
  rewrite pad_compare by assumption. cbn [append]. rewrite sep_compare.
  rewrite pad_compare by assumption. rewrite compare_Z_end, lex_Eq_r.
  now rewrite !lex_assoc.
Qed.

End DateFacts.

(** * Facts about running programs *)
Module RunFacts.
Import Async Env.

Lemma run_bind {A B} (p : Prog A) (f : A -> Prog B) : forall w,
  run (bind p f) w =
  match run p w with
  | (inr a, w') => run (f a) w'
  | (inl e, w') => (inl e, w')
  end.
Proof.
  induction p as [a|e|X op k IH]; intros w; cbn; try reflexivity.
  destruct (exec op w) as [r w']. apply IH.
Qed.

Lemma run_try_catch {A} (p : Prog A) (h : exn -> Prog A) : forall w,
  run (try_catch p h) w =
  match run p w with
  | (inr a, w') => (inr a, w')
  | (inl e, w') => run (h e) w'
  end.
Proof.
  induction p as [a|e|X op k IH]; intros w; cbn; try reflexivity.
  destruct (exec op w) as [r w']. apply IH.
Qed.

Lemma exec_possible {X} (op : Op X) w : possible op (fst (exec op w)).
Proof.
  destruct op; cbn; try exact I;
    destruct (hd false (faults w)); cbn; try reflexivity; try exact I.
  match goal with |- context [if ?c then _ else _] => destruct c end;
    cbn; [exact I|reflexivity].
Qed.

Lemma NoThrow_run {A} (p : Prog A) : NoThrow p ->
  forall w, exists a w', run p w = (inr a, w').
Proof.
  induction 1 as [a|X op k _ IH]; intros w; cbn.
  - now exists a, w.
  - pose proof (exec_possible op w) as P.
    destruct (exec op w) as [r w']. apply IH. exact P.
Qed.

Lemma NoThrow_try_catch {A} (p : Prog A) (h : exn -> Prog A) :
  (forall e, NoThrow (h e)) -> NoThrow (try_catch p h).
Proof.
  intros Hh. induction p as [a|e|X op k IH]; cbn.
  - constructor.
  - apply Hh.
  - constructor. intros r _. apply IH.
Qed.

Lemma NoThrow_bind {A B} (p : Prog A) (f : A -> Prog B) :
  NoThrow p -> (forall a, NoThrow (f a)) -> NoThrow (bind p f).
Proof.
  intros Hp Hf. induction Hp as [a|X op k _ IH]; cbn.
  - apply Hf.
  - constructor. intros r Hr. now apply IH.
Qed.

Lemma NoThrow_console_log msg : NoThrow (perform (ConsoleLog msg)).
Proof. constructor. intros [e|[]] Hr; cbn in *; [discriminate|constructor]. Qed.

Lemma NoThrow_console_error msg e : NoThrow (perform (ConsoleError msg e)).
Proof. constructor. intros [e'|[]] Hr; cbn in *; [discriminate|constructor]. Qed.

Lemma NoThrow_turn {A} (p : Prog A) : NoThrow p -> forall w, NoThrow (fst (turn p w)).
Proof.
  induction 1 as [a|X op k H IH]; intros w; cbn.
  - constructor.
  - pose proof (exec_possible op w) as P.
    destruct (exec op w) as [r w']. cbn in P.
    destruct (isAsync op); cbn; [now apply H|now apply IH].
Qed.

(** Running a task turn by turn gives what running it at once gives. *)
Lemma run_turn {A} (p : Prog A) : forall w,
  run (fst (turn p w)) (snd (turn p w)) = run p w.
Proof.
  induction p as [a|e|X op k IH]; intros w; cbn; try reflexivity.
  destruct (exec op w) as [r w'].
  destruct (isAsync op); cbn; [reflexivity|apply IH].
Qed.

End RunFacts.

(** * Facts about the collection *)
Module StoreFacts.
Import Async Env.

Lemma has_id_In r l : In r l -> has_id (_id r) l = true.
Proof.
  intros H. unfold has_id. apply existsb_exists. exists r. split; [exact H|apply Nat.eqb_refl].
Qed.

Lemma has_id_update_one id id' b l : has_id id (update_one id' b l) = has_id id l.
Proof.
  unfold has_id. induction l as [|r l IH]; cbn; [reflexivity|].
  destruct (Nat.eqb (_id r) id'); cbn; [reflexivity|now rewrite IH].
Qed.

Lemma ids_update_one id b l : map _id (update_one id b l) = map _id l.
Proof.
  induction l as [|r l IH]; cbn; [reflexivity|].
  destruct (Nat.eqb (_id r) id); cbn; [reflexivity|now rewrite IH].
Qed.

Lemma find_update_one_same id b l :
  find_by_id id (update_one id b l) = option_map (fun r => set_notified r b) (find_by_id id l).
Proof.
  induction l as [|r l IH]; cbn; [reflexivity|].
  destruct (Nat.eqb (_id r) id) eqn:E; cbn; rewrite E; [reflexivity|exact IH].
Qed.

Lemma find_update_one_other id id' b l : id <> id' ->
  find_by_id id (update_one id' b l) = find_by_id id l.
Proof.
  intros N. induction l as [|r l IH]; cbn; [reflexivity|].
  destruct (Nat.eqb (_id r) id') eqn:E; cbn.
  - apply Nat.eqb_eq in E. destruct (Nat.eqb (_id r) id) eqn:E'; [|reflexivity].
    apply Nat.eqb_eq in E'. congruence.
  - now rewrite IH.
Qed.

Lemma find_by_id_In r l : NoDup (map _id l) -> In r l -> find_by_id (_id r) l = Some r.
Proof.
  induction l as [|x l IH]; cbn; intros N H; [contradiction|].
  inversion N as [|? ? Nx Nl]; subst.
  destruct H as [->|H]; [now rewrite Nat.eqb_refl|].
  destruct (Nat.eqb (_id x) (_id r)) eqn:E; [|now apply IH].
  apply Nat.eqb_eq in E. exfalso. apply Nx. rewrite E. now apply in_map.
Qed.

Lemma find_by_id_Some id r l : find_by_id id l = Some r -> In r l /\ _id r = id.
Proof.
  induction l as [|x l IH]; cbn; [discriminate|].
  destruct (Nat.eqb (_id x) id) eqn:E.
  - intros [= ->]. apply Nat.eqb_eq in E. auto.
  - intros H. destruct (IH H). auto.
Qed.

Lemma NoDup_map_filter {A B} (f : A -> B) (p : A -> bool) l :
  NoDup (map f l) -> NoDup (map f (filter p l)).
Proof.
  induction l as [|x l IH]; cbn; intros N; [constructor|].
  inversion N as [|? ? Nx Nl]; subst.
  destruct (p x); cbn; [|now apply IH].
  constructor; [|now apply IH].
  intros H. apply Nx. apply in_map_iff in H. destruct H as (y & E & Hy).
  apply filter_In in Hy. apply in_map_iff. exists y. tauto.
Qed.

Lemma marked_ids l l' : marked l l' -> map _id l' = map _id l.
Proof.
  induction 1 as [|r r' l l' [->| ->] _ IH]; cbn; [reflexivity| |]; now rewrite IH.
Qed.

(** A flag that is [true] stays [true] through marks. *)
Lemma marked_find_true id r l l' : marked l l' ->
  find_by_id id l = Some r -> notified r = Some true -> find_by_id id l' = Some r.
Proof.
  induction 1 as [|x x' l l' Hx _ IH]; cbn; [discriminate|].
  intros F T. destruct Hx as [->| ->].
  - destruct (Nat.eqb (_id x) id); [exact F|now apply IH].
  - cbn. destruct (Nat.eqb (_id x) id); [|now apply IH].
    injection F as ->. destruct r; cbn in *. now subst.
Qed.

End StoreFacts.

(** * Facts about the loop of a cycle *)
Module NotifyFacts.
Import Async Env SchedulerService RunFacts.


Lemma marked_refl l : marked l l.
Proof. induction l; constructor; auto. Qed.

Lemma marked_trans l1 l2 l3 : marked l1 l2 -> marked l2 l3 -> marked l1 l3.
Proof.
  intros H. revert l3. induction H as [|r r' l l' Hr _ IH]; intros l3 H3.
  - inversion H3. constructor.
  - inversion H3 as [|a b la lb Hb Hl]; subst. constructor; [|now apply IH].
    destruct Hr as [-> | ->], Hb as [-> | ->]; auto.
Qed.

Lemma marked_update_one id l : marked l (update_one id (Some true) l).
Proof.
  induction l as [|r l IH]; cbn; [constructor|].
  destruct (Nat.eqb (_id r) id); constructor; auto. apply marked_refl.
Qed.

Lemma same_frame_refl w : same_frame w w.
Proof. repeat split. Qed.

Lemma same_frame_trans w1 w2 w3 : same_frame w1 w2 -> same_frame w2 w3 -> same_frame w1 w3.
Proof. unfold same_frame. intros (?&?&?&?) (?&?&?&?). repeat split; congruence. Qed.

Local Arguments has_id : simpl never.
Local Arguments update_one : simpl never.

Lemma notify_null d w : user d = None ->
  run (notify d) w =
  (inr tt, console_error (failedMessage (title (raw d)))
             (TypeError "Cannot read properties of null (reading 'toString')") w).
Proof. intros H. unfold notify, userId_toString. rewrite H. reflexivity. Qed.

Lemma notify_send_rejected d u w : user d = Some u -> hd false (faults w) = true ->
  run (notify d) w =
  (inr tt, console_error (failedMessage (title (raw d))) (TransportError "send")
             (sent_to u d w)).
Proof.
  intros H F. unfold notify, userId_toString, sent_to. rewrite H. cbn.
  rewrite F. reflexivity.
Qed.

Lemma notify_save_rejected d u w : user d = Some u ->
  hd false (faults w) = false -> hd false (tl (faults w)) = true ->
  run (notify d) w =
  (inr tt, console_error (failedMessage (title (raw d))) (StoreError "save")
             (set_faults (tl (tl (faults w))) (sent_to u d w))).
Proof.
  intros H F1 F2. unfold notify, userId_toString, sent_to. rewrite H. cbn.
  rewrite F1. cbn. rewrite F2. reflexivity.
Qed.

Lemma notify_gone d u w : user d = Some u ->
  hd false (faults w) = false -> hd false (tl (faults w)) = false ->
  has_id (_id (raw d)) (reminders w) = false ->
  run (notify d) w =
  (inr tt, console_error (failedMessage (title (raw d))) (DocumentNotFoundError (_id (raw d)))
             (set_faults (tl (tl (faults w))) (sent_to u d w))).
Proof.
  intros H F1 F2 G. unfold notify, userId_toString, sent_to. rewrite H. cbn.
  rewrite F1. cbn. rewrite F2. cbn. rewrite G. reflexivity.
Qed.

Lemma notify_ok d u w : user d = Some u ->
  hd false (faults w) = false -> hd false (tl (faults w)) = false ->
  has_id (_id (raw d)) (reminders w) = true ->
  run (notify d) w =
  (inr tt, console_log (sentMessage (title (raw d)))
             (set_reminders (update_one (_id (raw d)) (Some true) (reminders w))
                (set_faults (tl (tl (faults w))) (sent_to u d w)))).
Proof.
  intros H F1 F2 G. unfold notify, userId_toString, sent_to. rewrite H. cbn.
  rewrite F1. cbn. rewrite F2. cbn. rewrite G. reflexivity.
Qed.

(** One pass of the loop body: it returns, it attempts exactly the send of
    its document, and it changes the collection by at most one mark. *)
Lemma notify_frame d w :
  exists w', run (notify d) w = (inr tt, w')
    /\ map attempt_args (outbox w') = map attempt_args (outbox w) ++ send_args d
    /\ marked (reminders w) (reminders w')
    /\ same_frame w w'.
Proof.
  unfold send_args.
  destruct (user d) as [u|] eqn:U.
  - destruct (hd false (faults w)) eqn:F1.
    + rewrite (notify_send_rejected d u w U F1). eexists; split; [reflexivity|].
      cbn. rewrite map_app. repeat split. apply marked_refl.
    + destruct (hd false (tl (faults w))) eqn:F2.
      * rewrite (notify_save_rejected d u w U F1 F2). eexists; split; [reflexivity|].
        cbn. rewrite map_app. repeat split. apply marked_refl.
      * destruct (has_id (_id (raw d)) (reminders w)) eqn:G.
        -- rewrite (notify_ok d u w U F1 F2 G). eexists; split; [reflexivity|].
           cbn. rewrite map_app. repeat split. apply marked_update_one.
        -- rewrite (notify_gone d u w U F1 F2 G). eexists; split; [reflexivity|].
           cbn. rewrite map_app. repeat split. apply marked_refl.
  - rewrite (notify_null d w U). eexists; split; [reflexivity|].
    cbn. rewrite app_nil_r. repeat split. apply marked_refl.
Qed.

(** The whole loop: every document is attempted, in order, whatever
    happened to the ones before it. *)
Lemma for_of_notify docs : forall w,
  exists w', run (for_of docs notify) w = (inr tt, w')
    /\ map attempt_args (outbox w') = map attempt_args (outbox w) ++ flat_map send_args docs
    /\ marked (reminders w) (reminders w')
    /\ same_frame w w'.
Proof.
  induction docs as [|d docs IH]; intros w.
  - exists w. cbn. rewrite app_nil_r. repeat split. apply marked_refl.
  - cbn [for_of flat_map]. rewrite run_bind.
    destruct (notify_frame d w) as (w1 & R1 & O1 & M1 & S1). rewrite R1.
    destruct (IH w1) as (w2 & R2 & O2 & M2 & S2). exists w2.
    split; [exact R2|]. split; [|split].
    + rewrite O2, O1. now rewrite app_assoc.
    + now apply marked_trans with (reminders w1).
    + now apply same_frame_trans with w1.
Qed.

End NotifyFacts.

(** * Facts about one cycle *)
Module CycleFacts.
Import Async Env SchedulerService RunFacts NotifyFacts.

Local Arguments JSDate.toISOString : simpl never.
Local Arguments has_id : simpl never.
Local Arguments update_one : simpl never.

Lemma toISOString_ok t : Z.abs t <= maxTime -> toISOString t = Ret (JSDate.toISOString t).
Proof. intros H. unfold toISOString. now destruct (Z.leb_spec (Z.abs t) maxTime); [|lia]. Qed.

Ltac step := cbn [run try_catch bind perform exec next_fault fst snd].

Lemma cycle_unrenderable w : ~ renderable (clock w) ->
  run checkAndSendReminders w =
  (inr tt, console_error "Error checking reminders:" (RangeError "Invalid time value") w).
Proof.
  intros H. unfold checkAndSendReminders. step.
  unfold toISOString at 1.
  destruct (Z.leb_spec (Z.abs (clock w)) maxTime) as [L1|L1]; [|reflexivity].
  step. unfold toISOString.
  destruct (Z.leb_spec (Z.abs (clock w + 5 * 60 * 1000)) maxTime) as [L2|L2]; [|reflexivity].
  exfalso. apply H. now split.
Qed.

Lemma cycle_scan_rejected w : renderable (clock w) -> hd false (faults w) = true ->
  run checkAndSendReminders w =
  (inr tt, console_error "Error checking reminders:" (StoreError "find")
             (set_faults (tl (faults w)) w)).
Proof.
  intros [L1 L2] F. unfold checkAndSendReminders. step.
  rewrite (toISOString_ok _ L1). step. rewrite (toISOString_ok _ L2). step.
  rewrite F. reflexivity.
Qed.

Lemma cycle_scan_empty w : renderable (clock w) -> hd false (faults w) = false ->
  selected (clock w) (reminders w) = [] ->
  run checkAndSendReminders w = (inr tt, set_faults (tl (faults w)) w).
Proof.
  intros [L1 L2] F E. unfold checkAndSendReminders. step.
  rewrite (toISOString_ok _ L1). step. rewrite (toISOString_ok _ L2). step.
  rewrite F. step. change (reminders (set_faults (tl (faults w)) w)) with (reminders w).
  fold (selected (clock w) (reminders w)). rewrite E. reflexivity.
Qed.

Lemma cycle_scan_some w : renderable (clock w) -> hd false (faults w) = false ->
  selected (clock w) (reminders w) <> [] ->
  run checkAndSendReminders w =
  run (for_of (map (populate w) (selected (clock w) (reminders w))) notify)
    (console_log (foundMessage (List.length (selected (clock w) (reminders w))))
       (set_faults (tl (faults w)) w)).
Proof.
  intros [L1 L2] F E. unfold checkAndSendReminders.
  rewrite run_try_catch. step.
  rewrite (toISOString_ok _ L1). step. rewrite (toISOString_ok _ L2). step.
  rewrite F. step. change (reminders (set_faults (tl (faults w)) w)) with (reminders w).
  fold (selected (clock w) (reminders w)).
  change (populate (set_faults (tl (faults w)) w)) with (populate w).
  rewrite length_map.
  destruct (selected (clock w) (reminders w)) as [|r l] eqn:S; [congruence|].
  cbn [List.length Nat.eqb]. step.
  match goal with |- context [run ?p ?w0] =>
    destruct (for_of_notify (map (populate w) (r :: l)) w0) as (w' & R & _) end.
  rewrite R. reflexivity.
Qed.

Lemma scan_ok w : hd false (faults w) = false ->
  scan w = map (populate w) (selected (clock w) (reminders w)).
Proof. intros F. unfold scan. step. now rewrite F. Qed.

Lemma scan_rejected w : hd false (faults w) = true -> scan w = [].
Proof. intros F. unfold scan. step. now rewrite F. Qed.

(** A cycle returns; it changes the collection only by marks, and the
    sends it attempts are those of the documents its scan returned. *)
Lemma cycle_frame w :
  exists w', run checkAndSendReminders w = (inr tt, w')
    /\ marked (reminders w) (reminders w')
    /\ same_frame w w'
    /\ (renderable (clock w) ->
        map attempt_args (outbox w') = map attempt_args (outbox w) ++ flat_map send_args (scan w))
    /\ (~ renderable (clock w) -> outbox w' = outbox w).
Proof.
  assert (D : renderable (clock w) \/ ~ renderable (clock w)) by (unfold renderable; lia).
  destruct D as [R|R].
  - destruct (hd false (faults w)) eqn:F.
    + rewrite (cycle_scan_rejected w R F). eexists; split; [reflexivity|].
      rewrite (scan_rejected w F). cbn. rewrite app_nil_r.
      repeat split; auto using marked_refl; tauto.
    + rewrite (scan_ok w F).
      destruct (selected (clock w) (reminders w)) as [|r l] eqn:S.
      * rewrite (cycle_scan_empty w R F S). eexists; split; [reflexivity|].
        cbn. rewrite app_nil_r. repeat split; auto using marked_refl; tauto.
      * rewrite (cycle_scan_some w R F) by (rewrite S; discriminate). rewrite S.
        match goal with |- context [run ?p ?w0] =>
          destruct (for_of_notify (map (populate w) (r :: l)) w0) as (w' & E & O & M & Fr) end.
        exists w'. split; [exact E|]. split; [exact M|]. split; [exact Fr|].
        split; [intros _; exact O|tauto].
  - rewrite (cycle_unrenderable w R). eexists; split; [reflexivity|].
    cbn. repeat split; auto using marked_refl; tauto.
Qed.

End CycleFacts.

(** * The scheduler's properties *)
Module SchedulerProps.
Import Async Env SchedulerService RunFacts StoreFacts NotifyFacts CycleFacts Fixtures.
Local Open Scope string_scope.
Local Open Scope list_scope.
Local Arguments has_id : simpl never.
Local Arguments update_one : simpl never.
Local Arguments JSDate.toISOString : simpl never.

Lemma NoThrow_returns (p : Prog unit) : NoThrow p -> forall w, fst (run p w) = inr tt.
Proof.
  intros H w. destruct (NoThrow_run p H w) as ([] & w' & E). now rewrite E.
Qed.

Lemma NoThrow_checkAndSendReminders : NoThrow checkAndSendReminders.
Proof. apply NoThrow_try_catch. intros e. apply NoThrow_console_error. Qed.

Lemma NoThrow_resetAllNotifications : NoThrow resetAllNotifications.
Proof. apply NoThrow_try_catch. intros e. apply NoThrow_console_error. Qed.

Lemma NoThrow_triggerManualCheck : NoThrow triggerManualCheck.
Proof.
  apply NoThrow_bind; [apply NoThrow_console_log|].
  intros _. apply NoThrow_checkAndSendReminders.
Qed.

Lemma NoThrow_timerCallback : NoThrow timerCallback.
Proof. apply NoThrow_try_catch. intros e. apply NoThrow_console_error. Qed.

(** C9. checkAndSendReminders, triggerManualCheck and resetAllNotifications
    never propagate an exception: whatever the outcomes of the calls they
    await, each ends by returning, so run from any state each one's promise
    resolves. *)
Theorem never_propagates :
  NoThrow checkAndSendReminders /\ NoThrow triggerManualCheck
  /\ NoThrow resetAllNotifications
  /\ forall w, fst (run checkAndSendReminders w) = inr tt
               /\ fst (run triggerManualCheck w) = inr tt
               /\ fst (run resetAllNotifications w) = inr tt.
Proof.
  split; [apply NoThrow_checkAndSendReminders|].
  split; [apply NoThrow_triggerManualCheck|].
  split; [apply NoThrow_resetAllNotifications|].
  intros w. repeat split; apply NoThrow_returns;
    auto using NoThrow_checkAndSendReminders, NoThrow_triggerManualCheck,
      NoThrow_resetAllNotifications.
Qed.

(** C7. A cycle whose scan is rejected ends with the collection and the
    outbox as they were and one error line on the console; a cycle whose
    scan selects nothing ends with collection, outbox and console as they
    were.  In both cases the scheduler's state is untouched, so the next
    tick starts a fresh cycle from the same collection. *)
Theorem scan_failure_or_empty w :
  renderable (clock w) ->
  (hd false (faults w) = true \/ selected (clock w) (reminders w) = []) ->
  exists w', run checkAndSendReminders w = (inr tt, w')
    /\ reminders w' = reminders w
    /\ outbox w' = outbox w
    /\ console w' =
       (if hd false (faults w)
        then console w ++ [Err "Error checking reminders:" (StoreError "find")]
        else console w)
    /\ same_frame w w'
    /\ faults w' = tl (faults w).
Proof.
  intros R H. destruct (hd false (faults w)) eqn:F.
  - rewrite (cycle_scan_rejected w R F). eexists; split; [reflexivity|]. now repeat split.
  - destruct H as [H|H]; [discriminate|].
    rewrite (cycle_scan_empty w R F H). eexists; split; [reflexivity|]. now repeat split.
Qed.

Lemma scan_failure_or_empty_witness :
  renderable (clock (world t0 [standup] [true]))
  /\ (hd false (faults (world t0 [standup] [true])) = true
      \/ selected (clock (world t0 [standup] [true])) (reminders (world t0 [standup] [true])) = [])
  /\ exists w', run checkAndSendReminders (world t0 [standup] [true]) = (inr tt, w')
    /\ reminders w' = [standup]
    /\ outbox w' = []
    /\ console w' = [Err "Error checking reminders:" (StoreError "find")]
    /\ same_frame (world t0 [standup] [true]) w'
    /\ faults w' = [].
Proof.
  assert (R : renderable (clock (world t0 [standup] [true])))
    by (unfold renderable; vm_compute; split; discriminate).
  assert (H : hd false (faults (world t0 [standup] [true])) = true
              \/ selected (clock (world t0 [standup] [true]))
                   (reminders (world t0 [standup] [true])) = [])
    by (left; reflexivity).
  split; [exact R|]. split; [exact H|].
  exact (scan_failure_or_empty (world t0 [standup] [true]) R H).
Defined.

Lemma three_due w r1 r2 r3 u1 u2 u3 fs :
  renderable (clock w) ->
  NoDup (map _id (reminders w)) ->
  selected (clock w) (reminders w) = [r1; r2; r3] ->
  lookup_user (users w) (userId r1) = Some u1 ->
  lookup_user (users w) (userId r2) = Some u2 ->
  lookup_user (users w) (userId r3) = Some u3 ->
  faults w = false :: false :: false :: true :: false :: false :: fs ->
  exists w', run checkAndSendReminders w = (inr tt, w')
    /\ outbox w' = outbox w ++ [mkAttempt u1 (title r1) (datetime r1) true;
                                mkAttempt u2 (title r2) (datetime r2) false;
                                mkAttempt u3 (title r3) (datetime r3) true]
    /\ find_by_id (_id r1) (reminders w') = Some (set_notified r1 (Some true))
    /\ find_by_id (_id r2) (reminders w') = Some r2
    /\ ne_true (notified r2) = true
    /\ find_by_id (_id r3) (reminders w') = Some (set_notified r3 (Some true))
    /\ faults w' = fs.
Proof.
  intros R N S U1 U2 U3 F.
  assert (I : forall r, In r [r1; r2; r3] -> In r (reminders w) /\ ne_true (notified r) = true).
  { intros r Hr. rewrite <- S in Hr. apply filter_In in Hr. destruct Hr as [Hr M].
    unfold matches in M. apply andb_true_iff in M. tauto. }
  assert (D : NoDup (map _id [r1; r2; r3])) by (rewrite <- S; now apply NoDup_map_filter).
  cbn in D. inversion D as [|? ? D1 D']; subst. inversion D' as [|? ? D2 _]; subst.
  cbn in D1, D2.
  assert (N12 : _id r1 <> _id r2) by (intros E; apply D1; auto).
  assert (N13 : _id r1 <> _id r3) by (intros E; apply D1; auto).
  assert (N23 : _id r2 <> _id r3) by (intros E; apply D2; auto).
  assert (H1 : In r1 (reminders w)) by (apply I; cbn; auto).
  assert (H2 : In r2 (reminders w)) by (apply I; cbn; auto).
  assert (H3 : In r3 (reminders w)) by (apply I; cbn; auto).
  rewrite (cycle_scan_some w R) by (rewrite ?F, ?S; cbn; congruence).
  rewrite S, F. cbn [map for_of tl]. unfold populate at 1 2 3. rewrite U1, U2, U3.
  rewrite run_bind.
  rewrite (notify_ok _ u1) by (cbn; auto using has_id_In).
  cbn [raw _id title datetime]. rewrite run_bind.
  rewrite (notify_send_rejected _ u2) by reflexivity.
  cbn [raw _id title datetime]. rewrite run_bind.
  rewrite (notify_ok _ u3) by (cbn; rewrite ?has_id_update_one; auto using has_id_In).
  eexists; split; [reflexivity|].
  cbn. rewrite <- !app_assoc. cbn.
  rewrite (find_update_one_other (_id r1) (_id r3)) by assumption.
  rewrite (find_update_one_other (_id r2) (_id r3)) by assumption.
  rewrite (find_update_one_other (_id r2) (_id r1)) by auto.
  rewrite !find_update_one_same.
  rewrite (find_update_one_other (_id r3) (_id r1)) by auto.
  rewrite !find_by_id_In by assumption. cbn.
  repeat split. apply I; cbn; auto.
Qed.

(** C6. The loop of a cycle attempts every document of the scan in order,
    whatever happened to the ones before it; with three due reminders of
    which the second one's send is rejected, the first and the third are
    sent and marked notified, and the second keeps its flag as it was,
    not true. *)
Theorem partial_failure_isolation :
  (forall docs w, exists w',
      run (for_of docs notify) w = (inr tt, w')
      /\ map attempt_args (outbox w') = map attempt_args (outbox w) ++ flat_map send_args docs)
  /\ (forall w r1 r2 r3 u1 u2 u3 fs,
      renderable (clock w) ->
      NoDup (map _id (reminders w)) ->
      selected (clock w) (reminders w) = [r1; r2; r3] ->
      lookup_user (users w) (userId r1) = Some u1 ->
      lookup_user (users w) (userId r2) = Some u2 ->
      lookup_user (users w) (userId r3) = Some u3 ->
      faults w = false :: false :: false :: true :: false :: false :: fs ->
      exists w', run checkAndSendReminders w = (inr tt, w')
        /\ outbox w' = outbox w ++ [mkAttempt u1 (title r1) (datetime r1) true;
                                    mkAttempt u2 (title r2) (datetime r2) false;
                                    mkAttempt u3 (title r3) (datetime r3) true]
        /\ find_by_id (_id r1) (reminders w') = Some (set_notified r1 (Some true))
        /\ find_by_id (_id r2) (reminders w') = Some r2
        /\ ne_true (notified r2) = true
        /\ find_by_id (_id r3) (reminders w') = Some (set_notified r3 (Some true))
        /\ faults w' = fs).
Proof.
  split.
  - intros docs w. destruct (for_of_notify docs w) as (w' & R & O & _). now exists w'.
  - exact three_due.
Qed.

Lemma partial_failure_isolation_witness :
  exists w',
    run checkAndSendReminders
      (world t0 [standup; dentist; callHome] [false; false; false; true; false; false])
    = (inr tt, w')
    /\ outbox w' = [mkAttempt "ada" "Stand-up" "2023-11-14T22:14:20.000Z" true;
                    mkAttempt "grace" "Dentist" "2023-11-14T22:15:20.000Z" false;
                    mkAttempt "ada" "Call home" "2023-11-14T22:18:20.000Z" true]
    /\ find_by_id 1 (reminders w') = Some (set_notified standup (Some true))
    /\ find_by_id 2 (reminders w') = Some dentist
    /\ ne_true (notified dentist) = true
    /\ find_by_id 3 (reminders w') = Some (set_notified callHome (Some true))
    /\ faults w' = [].
Proof.
  apply (proj2 partial_failure_isolation
           (world t0 [standup; dentist; callHome] [false; false; false; true; false; false])
           standup dentist callHome "ada" "grace" "ada" []).
  - unfold renderable. vm_compute. split; discriminate.
  - simpl. repeat constructor; simpl; lia.
  - vm_compute. reflexivity.
  - reflexivity.
  - reflexivity.
  - reflexivity.
  - reflexivity.
Defined.

Lemma every_minute t : Cron.matches_time "* * * * *" t = true.
Proof. reflexivity. Qed.

Lemma startScheduler_running w : isRunning w = true ->
  startScheduler w = console_log "Scheduler is already running" w.
Proof. intros H. unfold startScheduler. now rewrite H. Qed.

Lemma startScheduler_isRunning w : isRunning (startScheduler w) = true.
Proof. unfold startScheduler. destruct (isRunning w) eqn:E; [exact E|reflexivity]. Qed.

Lemma startScheduler_again n : forall w, isRunning w = true ->
  cronJobs (Nat.iter n startScheduler w) = cronJobs w
  /\ isRunning (Nat.iter n startScheduler w) = true.
Proof.
  induction n as [|n IH]; intros w H; [now split|].
  rewrite Nat.iter_succ. destruct (IH w H) as [J R].
  rewrite (startScheduler_running _ R). cbn. now split.
Qed.

(** C8. startScheduler leaves the scheduler running.  From a scheduler
    that is not running it registers one task, whose pattern matches every
    minute and whose callback is the cycle; from a running one it registers
    nothing, it only logs.  So however many further calls follow, the
    registered tasks and the running state stay as the first call left
    them. *)
Theorem startScheduler_idempotent w n :
  isRunning (startScheduler w) = true
  /\ cronJobs (startScheduler w)
     = (if isRunning w then cronJobs w
        else cronJobs w ++ [mkCronJob "* * * * *" timerCallback])
  /\ startScheduler (startScheduler w)
     = console_log "Scheduler is already running" (startScheduler w)
  /\ cronJobs (Nat.iter n startScheduler (startScheduler w)) = cronJobs (startScheduler w)
  /\ isRunning (Nat.iter n startScheduler (startScheduler w)) = true
  /\ (forall t, Cron.matches_time "* * * * *" t = true)
  /\ (forall t, Cron.due_callbacks t (startScheduler w)
                = Cron.due_callbacks t w ++ (if isRunning w then [] else [timerCallback])).
Proof.
  pose proof (startScheduler_isRunning w) as R.
  split; [exact R|].
  split; [unfold startScheduler; now destruct (isRunning w)|].
  split; [now apply startScheduler_running|].
  split; [now apply startScheduler_again|].
  split; [now apply startScheduler_again|].
  split; [exact every_minute|].
  intros t. unfold startScheduler, Cron.due_callbacks.
  destruct (isRunning w); cbn [cronJobs console_log set_console set_isRunning Cron.schedule set_cronJobs].
  - now rewrite app_nil_r.
  - rewrite filter_app, map_app. cbn [filter expression]. rewrite every_minute. reflexivity.
Qed.

Lemma stopScheduler_keeps_jobs t w : isRunning w = false ->
  Cron.due_callbacks t (stopScheduler (startScheduler w))
  = Cron.due_callbacks t w ++ [timerCallback].
Proof.
  intros H. unfold stopScheduler, startScheduler, Cron.due_callbacks. rewrite H.
  cbn [cronJobs console_log set_console set_isRunning Cron.schedule set_cronJobs].
  rewrite filter_app, map_app. cbn [filter expression]. rewrite every_minute. reflexivity.
Qed.

(** C3. After startScheduler and stopScheduler the task is still
    registered: the tick of the next minute runs a cycle, which sends the
    due reminder and marks it. *)
Theorem stopScheduler_keeps_ticking :
  let w := stopScheduler (startScheduler (world t0 [standup] [])) in
  isRunning w = false
  /\ Cron.due_callbacks (t0 + 40000) w = [timerCallback]
  /\ outbox (Cron.tick (t0 + 40000) w)
     = [mkAttempt "ada" "Stand-up" "2023-11-14T22:14:20.000Z" true]
  /\ map notified (reminders (Cron.tick (t0 + 40000) w)) = [Some true]
  /\ List.length (cronJobs (startScheduler w)) = 2%nat.
Proof.
  intros w. split; [reflexivity|].
  split; [subst w; rewrite stopScheduler_keeps_jobs by reflexivity; reflexivity|].
  split; [vm_compute; reflexivity|].
  split; [vm_compute; reflexivity|].
  vm_compute; reflexivity.
Qed.

End SchedulerProps.

(** * The due window *)
Module WindowProps.
Import Async Env SchedulerService DateFacts RunFacts StoreFacts CycleFacts Fixtures AsWritten.
Import JSDate.

Local Arguments JSDate.toISOString : simpl never.

Lemma leb_toISOString t1 t2 : fixedWidth t1 -> fixedWidth t2 ->
  String.leb (JSDate.toISOString t1) (JSDate.toISOString t2) = (t1 <=? t2).
Proof.
  intros W1 W2. unfold String.leb, Z.leb.
  rewrite toISOString_compare by now apply fixed_width_year.
  reflexivity.
Qed.

Lemma matches_window now d r :
  fixedWidth now -> fixedWidth (now + 5 * 60 * 1000) -> fixedWidth d ->
  datetime r = JSDate.toISOString d ->
  matches (JSDate.toISOString now) (JSDate.toISOString (now + 5 * 60 * 1000)) r
  = (now <=? d) && (d <=? now + 5 * 60 * 1000) && ne_true (notified r).
Proof.
  intros W1 W2 W3 E. unfold matches. rewrite E.
  now rewrite !leb_toISOString by assumption.
Qed.

Lemma selected_window now l (instant : Reminder -> Z) :
  fixedWidth now -> fixedWidth (now + 5 * 60 * 1000) ->
  (forall r, In r l -> datetime r = JSDate.toISOString (instant r) /\ fixedWidth (instant r)) ->
  selected now l
  = filter (fun r => (now <=? instant r) && (instant r <=? now + 5 * 60 * 1000)
                     && ne_true (notified r)) l.
Proof.
  intros W1 W2 H. unfold selected. apply filter_ext_in.
  intros r Hr. destruct (H r Hr) as [E W3]. now apply matches_window.
Qed.

Lemma ne_true_iff b : ne_true b = true <-> b <> Some true.
Proof. destruct b as [[|]|]; cbn; split; congruence. Qed.

(** C10. The query compares strings; for instants whose renderings have
    the fixed width of 24 characters the order of the renderings is the
    order of the instants, so the string range selects exactly the
    reminders whose instant lies in [now, now + 5 minutes] and whose flag
    is not true. *)
Theorem string_order_is_time_order :
  (forall t1 t2, fixedWidth t1 -> fixedWidth t2 ->
     String.compare (JSDate.toISOString t1) (JSDate.toISOString t2) = (t1 ?= t2))
  /\ (forall now l (instant : Reminder -> Z),
     fixedWidth now -> fixedWidth (now + 5 * 60 * 1000) ->
     (forall r, In r l -> datetime r = JSDate.toISOString (instant r) /\ fixedWidth (instant r)) ->
     selected now l
     = filter (fun r => (now <=? instant r) && (instant r <=? now + 5 * 60 * 1000)
                        && ne_true (notified r)) l).
Proof.
  split.
  - intros t1 t2 W1 W2. apply toISOString_compare; now apply fixed_width_year.
  - exact selected_window.
Qed.

Lemma string_order_is_time_order_witness :
  String.compare (JSDate.toISOString t0) (JSDate.toISOString (t0 + minute)) = (t0 ?= t0 + minute)
  /\ selected t0 [standup; dentist; callHome]
     = filter (fun r => (t0 <=? dueInstant r) && (dueInstant r <=? t0 + 5 * 60 * 1000)
                        && ne_true (notified r)) [standup; dentist; callHome].
Proof.
  assert (W0 : fixedWidth t0) by (vm_compute; reflexivity).
  assert (W1 : fixedWidth (t0 + minute)) by (vm_compute; reflexivity).
  assert (W2 : fixedWidth (t0 + 5 * 60 * 1000)) by (vm_compute; reflexivity).
  assert (D : forall r, In r [standup; dentist; callHome] ->
                datetime r = JSDate.toISOString (dueInstant r) /\ fixedWidth (dueInstant r))
    by (intros r [<-|[<-|[<-|[]]]]; split; vm_compute; reflexivity).
  split.
  - exact (proj1 string_order_is_time_order t0 (t0 + minute) W0 W1).
  - exact (proj2 string_order_is_time_order t0 [standup; dentist; callHome] dueInstant W0 W2 D).
Defined.

(** Beyond the year 9999 the rendering is longer and starts with a sign:
    the last instant of 9999 is rendered after the first of 10000. *)
Lemma expanded_years_break_the_order :
  String.compare (JSDate.toISOString 253402300799999) (JSDate.toISOString 253402300800000) = Gt
  /\ ~ fixedWidth 253402300800000.
Proof. split; [reflexivity|]. unfold fixedWidth. vm_compute. discriminate. Qed.

Lemma late_cycle_misses : ~ selected_at_or_after_now.
Proof.
  intros H.
  specialize (H t0 (t0 + 4 * minute)
                (mkReminder 1 10 "Stand-up" (JSDate.toISOString (t0 + 3 * minute)) (Some false))
                [mkReminder 1 10 "Stand-up" (JSDate.toISOString (t0 + 3 * minute)) (Some false)]).
  vm_compute in H. apply H; auto. discriminate.
Qed.

(** C5 (amended). A scan at [s] selects exactly the reminders whose instant
    lies in [s, s + 5 minutes] and whose flag is not true (instants and
    bounds rendered with the fixed width).  A reminder due three minutes
    after [now] with the flag false is selected by every cycle run at [s]
    with [now <= s <= now + 3 minutes]; it is not selected once its flag is
    true, nor when it is due more than five minutes after the scan.  The
    scan of a cycle whose query succeeds returns those documents. *)
Theorem window_selection s l (instant : Reminder -> Z) :
  fixedWidth s -> fixedWidth (s + 5 * 60 * 1000) ->
  (forall r, In r l -> datetime r = JSDate.toISOString (instant r) /\ fixedWidth (instant r)) ->
  (forall r, In r (selected s l)
             <-> In r l /\ s <= instant r <= s + 5 * 60 * 1000 /\ notified r <> Some true)
  /\ (forall r now, In r l -> instant r = now + 3 * minute -> notified r = Some false ->
        now <= s <= now + 3 * minute -> In r (selected s l))
  /\ (forall r, notified r = Some true -> ~ In r (selected s l))
  /\ (forall r, In r l -> s + 5 * 60 * 1000 < instant r -> ~ In r (selected s l))
  /\ (forall w, clock w = s -> reminders w = l -> hd false (faults w) = false ->
        map raw (scan w) = selected s l).
Proof.
  intros W1 W2 H.
  assert (I : forall r, In r (selected s l)
                <-> In r l /\ s <= instant r <= s + 5 * 60 * 1000 /\ notified r <> Some true).
  { intros r. rewrite (selected_window s l instant W1 W2 H), filter_In.
    rewrite !andb_true_iff, !Z.leb_le, ne_true_iff. tauto. }
  split; [exact I|]. split; [|split; [|split]].
  - intros r now Hr E N B. apply I. split; [exact Hr|]. rewrite E, N.
    unfold minute in *. split; [lia|discriminate].
  - intros r N Hr. apply I in Hr. tauto.
  - intros r Hr L Hs. apply I in Hs. lia.
  - intros w <- <- F. rewrite (scan_ok w F), map_map. cbn. apply map_id.
Qed.

Lemma sample_due_instants r : In r [standup; dentist; callHome] ->
  datetime r = JSDate.toISOString (dueInstant r) /\ fixedWidth (dueInstant r).
Proof. intros [<-|[<-|[<-|[]]]]; split; vm_compute; reflexivity. Qed.

Lemma window_selection_witness :
  (In dentist (selected (t0 + minute) [standup; dentist; callHome])
   <-> In dentist [standup; dentist; callHome]
       /\ t0 + minute <= dueInstant dentist <= t0 + minute + 5 * 60 * 1000
       /\ notified dentist <> Some true)
  /\ In dentist (selected (t0 + minute) [standup; dentist; callHome]).
Proof.
  assert (W1 : fixedWidth (t0 + minute)) by (vm_compute; reflexivity).
  assert (W2 : fixedWidth (t0 + minute + 5 * 60 * 1000)) by (vm_compute; reflexivity).
  pose proof (window_selection (t0 + minute) [standup; dentist; callHome] dueInstant
                W1 W2 sample_due_instants) as (A & B & _).
  split; [exact (A dentist)|].
  apply (B dentist (t0 - minute)).
  - simpl. right. left. reflexivity.
  - reflexivity.
  - reflexivity.
  - unfold t0, minute. lia.
Defined.

Lemma reset_ok w : hd false (faults w) = false ->
  run resetAllNotifications w
  = (inr tt, console_log (resetMessage (modifiedCount (reminders w)))
               (set_reminders (unset_notified (reminders w)) (set_faults (tl (faults w)) w))).
Proof. intros F. unfold resetAllNotifications. step. rewrite F. reflexivity. Qed.

Lemma reset_rejected w : hd false (faults w) = true ->
  run resetAllNotifications w
  = (inr tt, console_error "Error resetting notifications:" (StoreError "updateMany")
               (set_faults (tl (faults w)) w)).
Proof. intros F. unfold resetAllNotifications. step. rewrite F. reflexivity. Qed.

Lemma unset_notified_In r l : In r l -> notified r = Some true ->
  In (set_notified r None) (unset_notified l).
Proof.
  intros H T. unfold unset_notified. apply in_map_iff. exists r. split; [|exact H].
  unfold is_true. now rewrite T.
Qed.

Lemma reset_does_not_revive_past_due : ~ past_due_selected_after_reset.
Proof.
  intros H.
  specialize (H (world t0 [mkReminder 1 10 "Stand-up" (JSDate.toISOString (t0 - minute)) (Some true)] [])
                (mkReminder 1 10 "Stand-up" (JSDate.toISOString (t0 - minute)) (Some true))
                (t0 - minute)).
  vm_compute in H. apply H; auto.
Qed.

(** C4 (amended). After a reset that the store accepts, a reminder that was
    notified has its flag cleared, and a scan at [s] selects it if and only
    if its due instant lies in [s, s + 5 minutes]: a reminder still inside
    the window is selected again (it was not before the reset), one whose
    due time is past is not.  Only the collection decides. *)
Theorem reset_round_trip w r d :
  hd false (faults w) = false ->
  In r (reminders w) -> notified r = Some true ->
  datetime r = JSDate.toISOString d -> fixedWidth d ->
  exists w', run resetAllNotifications w = (inr tt, w')
    /\ reminders w' = unset_notified (reminders w)
    /\ In (set_notified r None) (reminders w')
    /\ outbox w' = outbox w
    /\ forall s, fixedWidth s -> fixedWidth (s + 5 * 60 * 1000) ->
         ~ In r (selected s (reminders w))
         /\ (In (set_notified r None) (selected s (reminders w'))
             <-> s <= d <= s + 5 * 60 * 1000).
Proof.
  intros F H T E Wd. rewrite (reset_ok w F). eexists; split; [reflexivity|].
  cbn [reminders console_log set_console set_reminders outbox set_faults].
  split; [reflexivity|]. split; [now apply unset_notified_In|]. split; [reflexivity|].
  intros s W1 W2. split.
  - unfold selected. rewrite filter_In. intros [_ M]. unfold matches in M.
    rewrite T in M. cbn in M. now rewrite andb_false_r in M.
  - unfold selected. rewrite filter_In.
    rewrite (matches_window s d) by (assumption || exact E).
    cbn [notified set_notified ne_true]. rewrite andb_true_r, andb_true_iff, !Z.leb_le.
    split; [tauto|]. intros B. split; [now apply unset_notified_In|exact B].
Qed.

Lemma reset_round_trip_witness :
  exists w',
    run resetAllNotifications (world t0 [set_notified standup (Some true)] []) = (inr tt, w')
    /\ reminders w' = unset_notified [set_notified standup (Some true)]
    /\ In (set_notified (set_notified standup (Some true)) None) (reminders w')
    /\ outbox w' = []
    /\ forall s, fixedWidth s -> fixedWidth (s + 5 * 60 * 1000) ->
         ~ In (set_notified standup (Some true)) (selected s [set_notified standup (Some true)])
         /\ (In (set_notified (set_notified standup (Some true)) None) (selected s (reminders w'))
             <-> s <= t0 + minute <= s + 5 * 60 * 1000).
Proof.
  apply (reset_round_trip (world t0 [set_notified standup (Some true)] [])
           (set_notified standup (Some true)) (t0 + minute)).
  - reflexivity.
  - simpl. left. reflexivity.
  - reflexivity.
  - reflexivity.
  - reflexivity.
Defined.

End WindowProps.

(** * The mark step and duplicate dispatch *)
Module MarkProps.
Import Async Env SchedulerService RunFacts StoreFacts NotifyFacts CycleFacts Fixtures AsWritten.
Local Open Scope string_scope.
Local Open Scope list_scope.
Local Arguments has_id : simpl never.
Local Arguments update_one : simpl never.
Local Arguments JSDate.toISOString : simpl never.

Lemma has_id_find id l : has_id id l = true <-> exists r, find_by_id id l = Some r.
Proof.
  unfold has_id. induction l as [|x l IH]; cbn.
  - split; [discriminate|intros [r H]; discriminate].
  - destruct (Nat.eqb (_id x) id); cbn; [|exact IH].
    split; [intros _; now exists x|reflexivity].
Qed.

Lemma has_id_find_None id l : has_id id l = false <-> find_by_id id l = None.
Proof.
  pose proof (has_id_find id l) as H.
  destruct (has_id id l), (find_by_id id l) as [r|]; split; intros E;
    try reflexivity; try discriminate; exfalso.
  - destruct (proj1 H eq_refl). discriminate.
  - pose proof (proj2 H (ex_intro _ r eq_refl)). discriminate.
Qed.

Lemma mark_of_deleted_reminder_raises : ~ mark_never_raises.
Proof.
  intros H.
  destruct (H (mkDoc standup (Some "ada")) (world t0 (delete_by_id 1 [standup]) []) eq_refl)
    as [w' E].
  vm_compute in E. discriminate.
Qed.

(** The deletion in the middle of a cycle: the scan has returned the
    reminder, it is deleted, the send goes out, the save raises and the
    loop logs a failure. *)
Lemma deleted_between_scan_and_mark :
  let w0 := world t0 [standup] [] in
  let afterScan := turn checkAndSendReminders w0 in
  let deleted := set_reminders (delete_by_id 1 (reminders (snd afterScan))) (snd afterScan) in
  let final := run (fst afterScan) deleted in
  fst final = inr tt
  /\ outbox (snd final) = [mkAttempt "ada" "Stand-up" "2023-11-14T22:14:20.000Z" true]
  /\ console (snd final) = [Log (foundMessage 1);
                            Err (failedMessage "Stand-up") (DocumentNotFoundError 1)]
  /\ reminders (snd final) = [].
Proof. repeat split; vm_compute; reflexivity. Qed.

(** C2 (amended). The mark step is a save by id with no condition on the
    stored flag.  After an accepted send and with the store accepting the
    save: if a record with the document's id exists, it ends with notified
    true whatever its flag was, and the success is logged; if none exists,
    the save raises DocumentNotFoundError, the collection is unchanged, and
    the loop body catches and logs it as a failed notification.  No other
    record is touched, and the body returns in both cases. *)
Theorem mark_is_unconditional_save d u w :
  user d = Some u ->
  hd false (faults w) = false -> hd false (tl (faults w)) = false ->
  exists w', run (notify d) w = (inr tt, w')
    /\ (forall r, find_by_id (_id (raw d)) (reminders w) = Some r ->
          find_by_id (_id (raw d)) (reminders w') = Some (set_notified r (Some true))
          /\ console w' = console w ++ [Log (sentMessage (title (raw d)))])
    /\ (find_by_id (_id (raw d)) (reminders w) = None ->
          reminders w' = reminders w
          /\ console w' = console w ++ [Err (failedMessage (title (raw d)))
                                            (DocumentNotFoundError (_id (raw d)))])
    /\ (forall id, id <> _id (raw d) ->
          find_by_id id (reminders w') = find_by_id id (reminders w)).
Proof.
  intros U F1 F2.
  destruct (has_id (_id (raw d)) (reminders w)) eqn:G.
  - rewrite (notify_ok d u w U F1 F2 G). eexists; split; [reflexivity|].
    cbn [reminders console console_log set_console set_reminders set_faults sent_to set_outbox].
    split; [|split].
    + intros r E. rewrite find_update_one_same, E. now split.
    + intros E. apply has_id_find_None in E. congruence.
    + intros id N. now apply find_update_one_other.
  - rewrite (notify_gone d u w U F1 F2 G). eexists; split; [reflexivity|].
    cbn [reminders console console_error set_console set_reminders set_faults sent_to set_outbox].
    split; [|split].
    + intros r E. apply has_id_find_None in G. congruence.
    + intros _. now split.
    + reflexivity.
Qed.

Lemma mark_is_unconditional_save_witness :
  exists w',
    run (notify (mkDoc standup (Some "ada")))
        (world t0 [set_notified standup (Some true)] []) = (inr tt, w')
    /\ (forall r, find_by_id 1 [set_notified standup (Some true)] = Some r ->
          find_by_id 1 (reminders w') = Some (set_notified r (Some true))
          /\ console w' = [Log (sentMessage "Stand-up")]).
Proof.
  destruct (mark_is_unconditional_save (mkDoc standup (Some "ada")) "ada"
              (world t0 [set_notified standup (Some true)] [])
              eq_refl eq_refl eq_refl) as (w' & R & A & _).
  exists w'. split; [exact R|exact A].
Defined.














End MarkProps.

(** * Further properties of the scheduler *)
Module MoreProps.
Import Async Env SchedulerService RunFacts StoreFacts NotifyFacts CycleFacts Fixtures.
Local Open Scope string_scope.
Local Open Scope list_scope.
Local Arguments has_id : simpl never.
Local Arguments update_one : simpl never.
Local Arguments JSDate.toISOString : simpl never.

(** X1. The catch of the timer's callback never fires: checkAndSendReminders
    handles every failure itself, so from every state the callback does
    exactly what one cycle does. *)
Theorem timer_catch_never_fires w :
  run timerCallback w = run checkAndSendReminders w.
Proof.
  unfold timerCallback. rewrite run_try_catch.
  destruct (cycle_frame w) as (w' & R & _). now rewrite R.
Qed.

(** X2. A reminder whose user does not resolve: no send is attempted, no
    external call is made, the collection is untouched, one failure line is
    logged, and the loop goes on with the documents that follow. *)
Theorem unresolved_user_is_skipped d rest w :
  user d = None ->
  run (for_of (d :: rest) notify) w
  = run (for_of rest notify)
      (console_error (failedMessage (title (raw d)))
         (TypeError "Cannot read properties of null (reading 'toString')") w)
  /\ (let w1 := snd (run (notify d) w) in
      outbox w1 = outbox w /\ reminders w1 = reminders w /\ faults w1 = faults w).
Proof.
  intros U. cbn [for_of]. rewrite run_bind, (notify_null d w U). now repeat split.
Qed.

Lemma unresolved_user_is_skipped_witness :
  outbox (snd (run (for_of [mkDoc standup None; mkDoc dentist (Some "grace")] notify)
                   (world t0 [standup; dentist] [])))
  = [mkAttempt "grace" "Dentist" "2023-11-14T22:15:20.000Z" true]
  /\ map notified (reminders (snd (run (for_of [mkDoc standup None; mkDoc dentist (Some "grace")] notify)
                                       (world t0 [standup; dentist] []))))
     = [None; Some true].
Proof.
  rewrite (proj1 (unresolved_user_is_skipped (mkDoc standup None) [mkDoc dentist (Some "grace")]
                    (world t0 [standup; dentist] []) eq_refl)).
  split; vm_compute; reflexivity.
Defined.

Lemma is_true_unset r :
  is_true (notified (if is_true (notified r) then set_notified r None else r)) = false.
Proof. destruct r as [i u t d [[|]|]]; reflexivity. Qed.

Lemma modifiedCount_unset l : modifiedCount (unset_notified l) = 0%nat.
Proof.
  unfold modifiedCount, unset_notified. induction l as [|r l IH]; cbn [map filter]; [reflexivity|].
  now rewrite is_true_unset.
Qed.

Lemma unset_notified_idem l : unset_notified (unset_notified l) = unset_notified l.
Proof.
  unfold unset_notified. rewrite map_map. apply map_ext. intros r.
  now rewrite is_true_unset.
Qed.

(** X5. A reset the store accepts leaves no reminder with its flag true,
    keeps every reminder and its other fields, and logs how many flags it
    cleared; a second reset right after it clears none and changes nothing
    in the collection. *)
Theorem reset_clears_every_flag w :
  hd false (faults w) = false -> hd false (tl (faults w)) = false ->
  exists w1 w2,
    run resetAllNotifications w = (inr tt, w1)
    /\ run resetAllNotifications w1 = (inr tt, w2)
    /\ (forall r, In r (reminders w1) -> notified r <> Some true)
    /\ map _id (reminders w1) = map _id (reminders w)
    /\ console w1 = console w ++ [Log (resetMessage (modifiedCount (reminders w)))]
    /\ reminders w2 = reminders w1
    /\ console w2 = console w1 ++ [Log (resetMessage 0)].
Proof.
  intros F1 F2. rewrite (WindowProps.reset_ok w F1). eexists. eexists.
  split; [reflexivity|]. rewrite WindowProps.reset_ok by exact F2.
  split; [reflexivity|].
  cbn [reminders console console_log set_console set_reminders set_faults].
  rewrite modifiedCount_unset, unset_notified_idem.
  split; [|split; [|now repeat split]].
  - intros r H T. unfold unset_notified in H. apply in_map_iff in H.
    destruct H as (x & <- & _). destruct x as [i u t d [[|]|]]; cbn in T; discriminate.
  - unfold unset_notified. rewrite map_map. apply map_ext.
    intros r. now destruct (is_true (notified r)).
Qed.

Lemma reset_clears_every_flag_witness :
  exists w1 w2,
    run resetAllNotifications (world t0 [set_notified standup (Some true); dentist] []) = (inr tt, w1)
    /\ run resetAllNotifications w1 = (inr tt, w2)
    /\ (forall r, In r (reminders w1) -> notified r <> Some true)
    /\ map _id (reminders w1) = [1%nat; 2%nat]
    /\ console w1 = [Log (resetMessage 1)]
    /\ reminders w2 = reminders w1
    /\ console w2 = console w1 ++ [Log (resetMessage 0)].
Proof.
  exact (reset_clears_every_flag (world t0 [set_notified standup (Some true); dentist] [])
           eq_refl eq_refl).
Defined.

Lemma restart_jobs w : 
  cronJobs (stopScheduler (startScheduler w))
  = if isRunning w then cronJobs w else cronJobs w ++ [mkCronJob "* * * * *" timerCallback].
Proof. unfold stopScheduler, startScheduler. now destruct (isRunning w). Qed.

Lemma restart_not_running w : isRunning (stopScheduler (startScheduler w)) = false.
Proof. reflexivity. Qed.

Lemma restarts_jobs n : forall w, isRunning w = false ->
  cronJobs (Nat.iter n (fun x => stopScheduler (startScheduler x)) w)
  = cronJobs w ++ repeat (mkCronJob "* * * * *" timerCallback) n
  /\ isRunning (Nat.iter n (fun x => stopScheduler (startScheduler x)) w) = false.
Proof.
  induction n as [|n IH]; intros w H.
  - cbn. now rewrite app_nil_r.
  - rewrite Nat.iter_succ. destruct (IH w H) as [J R].
    split; [|apply restart_not_running].
    rewrite restart_jobs, R, J, <- app_assoc. f_equal.
    cbn [repeat]. now rewrite repeat_cons.
Qed.

(** X6. Every start after a stop registers one more task, and none is ever
    removed: after n rounds of start and stop, from a scheduler that was
    not running, every minute boundary runs n more cycles than before. *)
Theorem restarts_pile_up_timers n w t :
  isRunning w = false ->
  Cron.due_callbacks t (Nat.iter n (fun x => stopScheduler (startScheduler x)) w)
  = Cron.due_callbacks t w ++ repeat timerCallback n.
Proof.
  intros H. unfold Cron.due_callbacks.
  rewrite (proj1 (restarts_jobs n w H)), filter_app, map_app. f_equal.
  induction n as [|n IH]; [reflexivity|]. cbn [repeat filter expression].
  rewrite SchedulerProps.every_minute. cbn [map callback]. now rewrite IH.
Qed.

Lemma restarts_pile_up_timers_witness :
  Cron.due_callbacks (t0 + 40000)
    (Nat.iter 2 (fun x => stopScheduler (startScheduler x)) (world t0 [standup] []))
  = Cron.due_callbacks (t0 + 40000) (world t0 [standup] []) ++ repeat timerCallback 2.
Proof.
  exact (restarts_pile_up_timers 2 (world t0 [standup] []) (t0 + 40000) eq_refl).
Defined.

Lemma marked_find i r l l' : marked l l' -> find_by_id i l = Some r ->
  exists r', find_by_id i l' = Some r' /\ (r' = r \/ r' = set_notified r (Some true)).
Proof.
  induction 1 as [|x x' l l' Hx _ IH]; cbn; [discriminate|]. intros F.
  assert (E : _id x' = _id x) by (destruct Hx as [-> | ->]; reflexivity). rewrite E.
  destruct (Nat.eqb (_id x) i); [|now apply IH].
  injection F as <-. now exists x'.
Qed.

(** X7. Whatever fails, a cycle returns and it changes the collection only
    by setting flags to true: it adds and removes no reminder, clears no
    flag and changes no other field; and it leaves the scheduler's state,
    the registered tasks and the users alone. *)
Theorem cycle_only_marks w :
  exists w', run checkAndSendReminders w = (inr tt, w')
    /\ map _id (reminders w') = map _id (reminders w)
    /\ (forall i r, find_by_id i (reminders w) = Some r ->
          exists r', find_by_id i (reminders w') = Some r'
                     /\ (r' = r \/ r' = set_notified r (Some true)))
    /\ isRunning w' = isRunning w /\ cronJobs w' = cronJobs w /\ users w' = users w.
Proof.
  destruct (cycle_frame w) as (w' & R & M & (_ & U & I & J) & _).
  exists w'. split; [exact R|]. split; [now apply marked_ids|].
  split; [|now repeat split]. intros i r. now apply marked_find.
Qed.

(** X3. A send that went out followed by a save the store rejects: the
    reminder keeps its flag, the failure is logged, and the next cycle finds
    it again and sends a second notification. *)
Theorem rejected_save_resends w r u :
  renderable (clock w) ->
  NoDup (map _id (reminders w)) ->
  selected (clock w) (reminders w) = [r] ->
  lookup_user (users w) (userId r) = Some u ->
  faults w = [false; false; true] ->
  exists w1 w2,
    run checkAndSendReminders w = (inr tt, w1)
    /\ reminders w1 = reminders w
    /\ outbox w1 = outbox w ++ [mkAttempt u (title r) (datetime r) true]
    /\ console w1 = console w ++ [Log (foundMessage 1);
                                  Err (failedMessage (title r)) (StoreError "save")]
    /\ run checkAndSendReminders w1 = (inr tt, w2)
    /\ outbox w2 = outbox w ++ [mkAttempt u (title r) (datetime r) true;
                                mkAttempt u (title r) (datetime r) true]
    /\ find_by_id (_id r) (reminders w2) = Some (set_notified r (Some true)).
Proof.
  intros R N S U F.
  assert (Hin : In r (reminders w)).
  { assert (H : In r (selected (clock w) (reminders w))) by (rewrite S; now left).
    unfold selected in H. apply filter_In in H. tauto. }
  rewrite (cycle_scan_some w R) by (rewrite ?F, ?S; cbn; congruence).
  rewrite S, F. cbn [map for_of tl List.length]. unfold populate at 1. rewrite U.
  rewrite run_bind.
  rewrite (notify_save_rejected _ u) by reflexivity.
  cbn [raw title datetime run bind].
  eexists. eexists. split; [reflexivity|].
  cbn [reminders outbox console console_error console_log set_console set_faults sent_to
       set_outbox faults hd tl negb raw title datetime].
  split; [reflexivity|]. split; [reflexivity|]. split; [now rewrite <- app_assoc|].
  match goal with |- run _ ?w1 = _ /\ _ =>
    assert (R1 : renderable (clock w1)) by exact R;
    assert (F1 : hd false (faults w1) = false) by reflexivity;
    assert (S1 : selected (clock w1) (reminders w1) = [r]) by exact S;
    rewrite (cycle_scan_some w1 R1 F1) by (rewrite S1; discriminate); rewrite S1
  end.
  cbn [map for_of List.length]. unfold populate at 1.
  cbn [users console_error console_log set_console set_faults sent_to set_outbox].
  rewrite U, run_bind.
  rewrite (notify_ok _ u) by (try reflexivity; cbn; now apply has_id_In).
  cbn [raw title datetime _id run bind].
  split; [reflexivity|].
  cbn [reminders outbox console console_error console_log set_console set_faults sent_to
       set_outbox set_reminders faults hd tl negb raw title datetime].
  split; [now rewrite <- app_assoc|].
  rewrite find_update_one_same, (find_by_id_In r _ N Hin). reflexivity.
Qed.

Lemma rejected_save_resends_witness :
  exists w1 w2,
    run checkAndSendReminders (world t0 [standup] [false; false; true]) = (inr tt, w1)
    /\ reminders w1 = [standup]
    /\ outbox w1 = [mkAttempt "ada" "Stand-up" "2023-11-14T22:14:20.000Z" true]
    /\ console w1 = [Log (foundMessage 1); Err (failedMessage "Stand-up") (StoreError "save")]
    /\ run checkAndSendReminders w1 = (inr tt, w2)
    /\ outbox w2 = [mkAttempt "ada" "Stand-up" "2023-11-14T22:14:20.000Z" true;
                    mkAttempt "ada" "Stand-up" "2023-11-14T22:14:20.000Z" true]
    /\ find_by_id 1 (reminders w2) = Some (set_notified standup (Some true)).
Proof.
  apply (rejected_save_resends (world t0 [standup] [false; false; true]) standup "ada").
  - unfold renderable. vm_compute. split; discriminate.
  - simpl. repeat constructor; simpl; lia.
  - vm_compute. reflexivity.
  - reflexivity.
  - reflexivity.
Defined.

Lemma marked_In_inv l l' : marked l l' -> forall x', In x' l' ->
  exists x, In x l /\ (x' = x \/ x' = set_notified x (Some true)).
Proof.
  induction 1 as [|x x' l l' Hx _ IH]; cbn; [contradiction|].
  intros y [<-|H]; [now exists x; auto|].
  destruct (IH y H) as (z & Hz & E). exists z. auto.
Qed.

(** The loop when every call succeeds: every document is sent and marked. *)
Lemma loop_all_ok docs : forall w,
  faults w = [] ->
  (forall d, In d docs -> user d <> None) ->
  (forall d, In d docs -> has_id (_id (raw d)) (reminders w) = true) ->
  exists w', run (for_of docs notify) w = (inr tt, w')
    /\ faults w' = []
    /\ marked (reminders w) (reminders w')
    /\ (forall d r, In d docs -> find_by_id (_id (raw d)) (reminders w) = Some r ->
          find_by_id (_id (raw d)) (reminders w') = Some (set_notified r (Some true)))
    /\ outbox w' = outbox w ++ flat_map accepted docs
    /\ clock w' = clock w.
Proof.
  induction docs as [|d docs IH]; intros w F U G.
  - exists w. cbn. rewrite app_nil_r. repeat split; auto using marked_refl. contradiction.
  - cbn [for_of]. rewrite run_bind.
    destruct (user d) as [u|] eqn:Ud; [|exfalso; apply (U d); [now left|exact Ud]].
    rewrite (notify_ok d u w Ud) by (rewrite ?F; try reflexivity; apply G; now left).
    match goal with |- context [run _ ?w1] =>
      destruct (IH w1) as (w' & R & F' & M & K & O & C) end.
    + cbn. now rewrite F.
    + intros x Hx. apply U. now right.
    + intros x Hx. cbn [reminders console_log set_console set_reminders].
      rewrite has_id_update_one. apply G. now right.
    + exists w'. split; [exact R|]. split; [exact F'|].
      cbn [reminders console_log set_console set_reminders outbox sent_to set_outbox set_faults
           clock] in M, K, O, C.
      split; [|split; [|split]].
      * apply marked_trans with (update_one (_id (raw d)) (Some true) (reminders w));
          [apply marked_update_one|exact M].
      * intros x r [<-|Hx] E.
        -- apply (marked_find_true _ _ _ _ M); [|reflexivity].
           now rewrite find_update_one_same, E.
        -- destruct (Nat.eq_dec (_id (raw x)) (_id (raw d))) as [Eq|Ne].
           ++ rewrite (K x (set_notified r (Some true)) Hx); [reflexivity|].
              now rewrite Eq, find_update_one_same, <- Eq, E.
           ++ apply (K x r Hx). now rewrite find_update_one_other.
      * rewrite O, F. cbn [flat_map]. unfold accepted at 2. rewrite Ud.
        cbn. now rewrite <- app_assoc.
      * exact C.
Qed.

Lemma filter_none {A} (p : A -> bool) l : (forall x, In x l -> p x = false) -> filter p l = [].
Proof.
  induction l as [|x l IH]; cbn; intros H; [reflexivity|].
  rewrite (H x) by now left. apply IH. intros y Hy. apply H. now right.
Qed.

Lemma matches_notified gte lte r : matches gte lte (set_notified r (Some true)) = false.
Proof. unfold matches. cbn. apply andb_false_r. Qed.

(** Once every selected reminder is marked, the same scan selects nothing. *)
Lemma marked_selection_empty s l l' :
  NoDup (map _id l) -> marked l l' ->
  (forall r, In r (selected s l) -> find_by_id (_id r) l' = Some (set_notified r (Some true))) ->
  selected s l' = [].
Proof.
  intros N M K. apply filter_none. intros x' Hx'.
  destruct (marked_In_inv l l' M x' Hx') as (x & Hx & [-> | ->]); [|apply matches_notified].
  match goal with |- ?m = false => destruct m eqn:E end; [|reflexivity].
  assert (S : In x (selected s l)) by (apply filter_In; now split).
  pose proof (K x S) as F.
  rewrite (find_by_id_In x l') in F by (rewrite ?(marked_ids _ _ M); assumption).
  injection F as F. rewrite F, matches_notified in E. discriminate.
Qed.

(** X4. A cycle in which every call succeeds and every user resolves sends
    each selected reminder once and marks it; a second cycle at the same
    clock then selects nothing, sends nothing and changes nothing in the
    collection. *)
Theorem successful_cycle_is_not_repeated w :
  renderable (clock w) -> faults w = [] -> NoDup (map _id (reminders w)) ->
  (forall r, In r (selected (clock w) (reminders w)) ->
             lookup_user (users w) (userId r) <> None) ->
  exists w1 w2,
    run checkAndSendReminders w = (inr tt, w1)
    /\ outbox w1
       = outbox w ++ flat_map accepted (map (populate w) (selected (clock w) (reminders w)))
    /\ (forall r, In r (selected (clock w) (reminders w)) ->
          find_by_id (_id r) (reminders w1) = Some (set_notified r (Some true)))
    /\ selected (clock w1) (reminders w1) = []
    /\ run checkAndSendReminders w1 = (inr tt, w2)
    /\ outbox w2 = outbox w1
    /\ reminders w2 = reminders w1.
Proof.
  intros R F N U.
  assert (F0 : hd false (faults w) = false) by now rewrite F.
  assert (Sub : forall r, In r (selected (clock w) (reminders w)) -> In r (reminders w))
    by (intros r H; unfold selected in H; apply filter_In in H; tauto).
  assert (Two : forall w1, clock w1 = clock w -> faults w1 = [] ->
                  selected (clock w1) (reminders w1) = [] ->
                  exists w2, run checkAndSendReminders w1 = (inr tt, w2)
                             /\ outbox w2 = outbox w1 /\ reminders w2 = reminders w1).
  { intros w1 C F1 S1. rewrite (cycle_scan_empty w1); [now eexists| |now rewrite F1|exact S1].
    now rewrite C. }
  destruct (selected (clock w) (reminders w)) as [|r0 l0] eqn:S.
  - rewrite (cycle_scan_empty w R F0 S).
    destruct (Two (set_faults (tl (faults w)) w)) as (w2 & R2 & O2 & M2);
      [reflexivity|cbn; now rewrite F|exact S|].
    eexists. exists w2. split; [reflexivity|]. cbn [map flat_map]. rewrite app_nil_r.
    split; [reflexivity|]. split; [intros r []|]. split; [exact S|]. now repeat split.
  - rewrite (cycle_scan_some w R F0) by (rewrite S; discriminate). rewrite S.
    match goal with |- context [run (for_of ?docs notify) ?w0] =>
      destruct (loop_all_ok docs w0) as (w1 & R1 & F1 & M & K & O & C) end.
    + cbn. now rewrite F.
    + intros d Hd. apply in_map_iff in Hd. destruct Hd as (r & <- & Hr). cbn. now apply U.
    + intros d Hd. apply in_map_iff in Hd. destruct Hd as (r & <- & Hr). cbn.
      apply has_id_In. now apply Sub.
    + cbn [reminders console_log set_console set_faults outbox clock] in M, K, O, C.
      assert (K' : forall r, In r (r0 :: l0) ->
                     find_by_id (_id r) (reminders w1) = Some (set_notified r (Some true))).
      { intros r Hr. apply (K (populate w r) r); [now apply in_map|].
        cbn. apply find_by_id_In; [exact N|now apply Sub]. }
      assert (E : selected (clock w1) (reminders w1) = []).
      { rewrite C. apply (marked_selection_empty (clock w) (reminders w)); [exact N|exact M|].
        rewrite S. exact K'. }
      destruct (Two w1 C F1 E) as (w2 & R2 & O2 & M2).
      exists w1, w2. rewrite R1. now repeat split.
Qed.

Lemma successful_cycle_is_not_repeated_witness :
  exists w1 w2,
    run checkAndSendReminders (world t0 [standup; dentist; callHome] []) = (inr tt, w1)
    /\ outbox w1
       = outbox (world t0 [standup; dentist; callHome] [])
         ++ flat_map accepted
              (map (populate (world t0 [standup; dentist; callHome] []))
                 (selected (clock (world t0 [standup; dentist; callHome] []))
                    (reminders (world t0 [standup; dentist; callHome] []))))
    /\ (forall r, In r (selected (clock (world t0 [standup; dentist; callHome] []))
                          (reminders (world t0 [standup; dentist; callHome] []))) ->
          find_by_id (_id r) (reminders w1) = Some (set_notified r (Some true)))
    /\ selected (clock w1) (reminders w1) = []
    /\ run checkAndSendReminders w1 = (inr tt, w2)
    /\ outbox w2 = outbox w1
    /\ reminders w2 = reminders w1.
Proof.
  apply (successful_cycle_is_not_repeated (world t0 [standup; dentist; callHome] [])).
  - unfold renderable. vm_compute. split; discriminate.
  - reflexivity.
  - simpl. repeat constructor; simpl; lia.
  - intros r H. vm_compute in H. destruct H as [<-|[<-|[<-|[]]]]; discriminate.
Defined.

End MoreProps.
